(** * Shopify-MCP: the order tools (get-orders, get-order-by-id)

    A shallow embedding of [src/tools/getOrders.ts], [src/tools/getOrderById.ts]
    and of the part of [src/index.ts] that creates the GraphQL client,
    initialises the two tools and registers them on the MCP server.

    JavaScript values are an inductive type, the two [async] functions are
    programs of a small monad that threads the module variable
    [shopifyClient], carries thrown errors and records every
    [shopifyClient.request] as a node of an interaction tree whose
    continuation receives what the client answers. *)

From Stdlib Require Import String Ascii List Bool Arith ZArith Lia SpecFloat.
Import ListNotations.
Local Open Scope string_scope.
Local Open Scope list_scope.
Set Warnings "-register-all".

(** ** JavaScript values *)

(** A JS [number] is an IEEE 754 double: a signed zero, a signed infinity,
    [NaN], or a sign with a 53-bit mantissa and a binary exponent. *)
Definition number : Type := spec_float.

(** The doubles [10], [5] and [2]. *)
Definition ten : number := S754_finite false 5629499534213120 (-49).
Definition five : number := S754_finite false 5629499534213120 (-50).
Definition two : number := S754_finite false 4503599627370496 (-51).

(** The values that travel through the tools: what [JSON.parse] yields for a
    response, the [variables] object given to the client, and [undefined]
    (the value of a missing property).  An object is its list of own
    properties in insertion order. *)
Inductive value : Type :=
| VUndefined
| VNull
| VBool (b : bool)
| VNum (n : number)
| VStr (s : string)
| VArr (elems : list value)
| VObj (props : list (string * value)).

(** Error objects: [name] is the constructor's name, [message] the text. *)
Record JsError : Type := mkError { name : string; message : string }.

(** [new Error(msg)] *)
Definition Error (msg : string) : JsError := mkError "Error" msg.
(** [TypeError], as the engine raises it on a bad property access or call *)
Definition TypeError (msg : string) : JsError := mkError "TypeError" msg.

(** The completion of a block: a value, or a thrown error. *)
Inductive completion (A : Type) : Type :=
| Normal (a : A)
| Thrown (e : JsError).
Arguments Normal {A} a.
Arguments Thrown {A} e.

(** Sequencing of steps that may throw: the first throw ends the block. *)
Definition and_next {A B} (c : completion A) (f : A -> completion B)
  : completion B :=
  match c with
  | Normal a => f a
  | Thrown e => Thrown e
  end.

(** [ToBoolean]: [undefined], [null], [false], [0], [-0], [NaN] and the empty
    string are falsy, everything else (every array and object too) is truthy. *)
Definition truthy (v : value) : bool :=
  match v with
  | VUndefined | VNull => false
  | VBool b => b
  | VNum (S754_zero _) | VNum S754_nan => false
  | VNum _ => true
  | VStr s => negb (String.eqb s "")
  | VArr _ | VObj _ => true
  end.

(** A [string | undefined] of the typed input, seen as a value. *)
Definition of_optional (o : option string) : value :=
  match o with
  | Some s => VStr s
  | None => VUndefined
  end.

(** ** Objects *)

(** Own-property lookup: the value of [o[k]], [undefined] when [k] is missing. *)
Fixpoint lookup (k : string) (props : list (string * value)) : value :=
  match props with
  | [] => VUndefined
  | (k', v) :: rest => if String.eqb k k' then v else lookup k rest
  end.

(** [k in o] for own properties. *)
Fixpoint has_key (k : string) (props : list (string * value)) : bool :=
  match props with
  | [] => false
  | (k', _) :: rest => String.eqb k k' || has_key k rest
  end.

(** [o[k] = v]: overwrite in place, or append a new property. *)
Fixpoint assign (k : string) (v : value) (props : list (string * value))
  : list (string * value) :=
  match props with
  | [] => [(k, v)]
  | (k', v') :: rest =>
      if String.eqb k k' then (k', v) :: rest else (k', v') :: assign k v rest
  end.

Definition contains (vars : value) (k : string) : bool :=
  match vars with
  | VObj props => has_key k props
  | _ => false
  end.

Definition field (vars : value) (k : string) : value :=
  match vars with
  | VObj props => lookup k props
  | _ => VUndefined
  end.

(** [typeof]-style description used in the engine's messages. *)
Definition nullish_name (v : value) : option string :=
  match v with
  | VUndefined => Some "undefined"
  | VNull => Some "null"
  | _ => None
  end.

(** Property read [v.k] for the property names the tools read ([orders],
    [edges], [pageInfo], [node], [cursor], [order]): none of them is a
    built-in property of a string, number, boolean or array, so on those the
    read gives [undefined]; on [undefined] and [null] the engine throws. *)
Definition get_prop (v : value) (k : string) : completion value :=
  match nullish_name v with
  | Some what =>
      Thrown (TypeError ("Cannot read properties of " ++ what ++
                         " (reading '" ++ k ++ "')"))
  | None => Normal (field v k)
  end.

(** [arr.map(f)] where the callback may throw.  [expr] is the source text of
    the receiver, which the engine quotes when the receiver has no [map]. *)
Fixpoint map_completion (f : value -> completion value) (l : list value)
  : completion (list value) :=
  match l with
  | [] => Normal []
  | x :: rest =>
      and_next (f x) (fun y =>
      and_next (map_completion f rest) (fun ys => Normal (y :: ys)))
  end.

Definition array_map (expr : string) (recv : value)
           (f : value -> completion value) : completion value :=
  match recv with
  | VArr elems => and_next (map_completion f elems) (fun ys => Normal (VArr ys))
  | VUndefined =>
      Thrown (TypeError "Cannot read properties of undefined (reading 'map')")
  | VNull =>
      Thrown (TypeError "Cannot read properties of null (reading 'map')")
  | _ => Thrown (TypeError (expr ++ ".map is not a function"))
  end.

(** ** The GraphQL client and the effects of an [async] function *)

(** [new GraphQLClient(url, { headers })] *)
Record GraphQLClient : Type := mkClient {
  url : string;
  headers : list (string * string)
}.

(** One call [client.request(document, variables)]. *)
Record Request : Type := mkRequest {
  req_client : GraphQLClient;
  req_document : string;
  req_variables : value
}.

(** How the promise returned by [request] settles.  graphql-request rejects
    with error objects only ([ClientError], or the error of [fetch]). *)
Inductive Outcome : Type :=
| Resolved (data : value)
| Rejected (e : JsError).

(** An interaction tree with one kind of event: the program has finished with
    [r], or it awaits the answer to a request and goes on with [k]. *)
Inductive Proc (R : Type) : Type :=
| Ret (r : R)
| Await (rq : Request) (k : Outcome -> Proc R).
Arguments Ret {R} r.
Arguments Await {R} rq k.

(** The module-level variable of a tool file: [let shopifyClient: GraphQLClient;]
    is [undefined] until [initialize] runs. *)
Record ModuleVars : Type := mkVars { shopifyClient : option GraphQLClient }.

(** Code of a tool module: reads and writes the module variable, may throw,
    may await requests. *)
Definition M (A : Type) : Type := ModuleVars -> Proc (completion A * ModuleVars).

Definition ret {A} (a : A) : M A := fun s => Ret (Normal a, s).

Definition throw {A} (e : JsError) : M A := fun s => Ret (Thrown e, s).

Fixpoint bind_proc {R R'} (p : Proc R) (f : R -> Proc R') : Proc R' :=
  match p with
  | Ret r => f r
  | Await rq k => Await rq (fun o => bind_proc (k o) f)
  end.

Definition bind {A B} (m : M A) (f : A -> M B) : M B :=
  fun s =>
    bind_proc (m s) (fun r =>
      match r with
      | (Normal a, s') => f a s'
      | (Thrown e, s') => Ret (Thrown e, s')
      end).

(** [try { body } catch (error) { handler }] *)
Definition try_catch {A} (body : M A) (handler : JsError -> M A) : M A :=
  fun s =>
    bind_proc (body s) (fun r =>
      match r with
      | (Normal a, s') => Ret (Normal a, s')
      | (Thrown e, s') => handler e s'
      end).

Declare Scope js_scope.
Delimit Scope js_scope with js.
Notation "x <- m ;; k" := (bind m (fun x => k))
  (at level 100, m at next level, right associativity) : js_scope.
Local Open Scope js_scope.

(** A pure step that may throw. *)
Definition lift {A} (c : completion A) : M A :=
  match c with
  | Normal a => ret a
  | Thrown e => throw e
  end.

(** Reading and writing the module variable. *)
Definition read_shopifyClient : M (option GraphQLClient) :=
  fun s => Ret (Normal (shopifyClient s), s).

Definition write_shopifyClient (c : GraphQLClient) : M unit :=
  fun _ => Ret (Normal tt, mkVars (Some c)).

(** [await shopifyClient.request(document, variables)]: reading [request] off
    an [undefined] client throws before anything is sent; otherwise one
    request is made and the function resumes with the resolved data or with
    the rejection thrown at the [await]. *)
Definition await_request (client : option GraphQLClient)
           (document : string) (variables : value) : M value :=
  match client with
  | None =>
      throw (TypeError "Cannot read properties of undefined (reading 'request')")
  | Some c =>
      fun s =>
        Await (mkRequest c document variables)
              (fun o =>
                 match o with
                 | Resolved data => Ret (Normal data, s)
                 | Rejected e => Ret (Thrown e, s)
                 end)
  end.

(** ** Running a program against a network *)

(** The network decides each answer from the requests made so far and the
    request at hand, so two equal requests need not get equal answers. *)
Definition Network : Type := list Request -> Request -> Outcome.

(** [run net log p]: the final result of [p] and the log extended with every
    request [p] made, in order. *)
Fixpoint run {R} (net : Network) (log : list Request) (p : Proc R)
  : R * list Request :=
  match p with
  | Ret r => (r, log)
  | Await rq k => run net (log ++ [rq]) (k (net log rq))
  end.

(** The requests of [p] alone. *)
Definition requests_of {R} (net : Network) (p : Proc R) : list Request :=
  snd (run net [] p).

(** ** zod schemas

    The tools declare their inputs with zod.  The library is not part of the
    repository; the combinators below follow its documented behaviour for the
    constructors the two order tools use. *)

(** The result of [safeParse]; a failure is kept as the code of its first
    issue. *)
Inductive ParseResult (A : Type) : Type :=
| Success (data : A)
| Failure (issue : string).
Arguments Success {A} data.
Arguments Failure {A} issue.

Definition Schema (A : Type) : Type := value -> ParseResult A.

Definition and_then {A B} (r : ParseResult A) (f : A -> ParseResult B)
  : ParseResult B :=
  match r with
  | Success a => f a
  | Failure issue => Failure issue
  end.

(** Modelled from the spec: [z.string()] of zod, which is not among the
    sources (input shape checking); it accepts strings only, the empty one
    included. *)
Definition z_string : Schema string :=
  fun v => match v with
           | VStr s => Success s
           | _ => Failure "invalid_type"
           end.

(** Modelled from the spec: [.min(n)] of a zod string schema, which is not
    among the sources; it refuses a string shorter than [n] (for [n = 1], the
    only bound the tools use, that is the empty string in any encoding). *)
Definition z_min (n : nat) (inner : Schema string) : Schema string :=
  fun v => and_then (inner v) (fun s =>
             if Nat.ltb (String.length s) n
             then Failure "too_small"
             else Success s).

(** Modelled from the spec: [z.number()] of zod, which is not among the
    sources; it accepts numbers other than [NaN]. *)
Definition z_number : Schema number :=
  fun v => match v with
           | VNum S754_nan => Failure "invalid_type"
           | VNum n => Success n
           | _ => Failure "invalid_type"
           end.

(** Modelled from the spec: [z.boolean()] of zod, which is not among the
    sources. *)
Definition z_boolean : Schema bool :=
  fun v => match v with
           | VBool b => Success b
           | _ => Failure "invalid_type"
           end.

(** The member of an enum with a given run-time string. *)
Fixpoint find_member {A} (s : string) (members : list (string * A)) : option A :=
  match members with
  | [] => None
  | (s', a) :: rest => if String.eqb s s' then Some a else find_member s rest
  end.

(** Modelled from the spec: [z.enum([...])] of zod, which is not among the
    sources; it accepts exactly the listed strings. *)
Definition z_enum {A} (members : list (string * A)) : Schema A :=
  fun v => match v with
           | VStr s => match find_member s members with
                       | Some a => Success a
                       | None => Failure "invalid_enum_value"
                       end
           | _ => Failure "invalid_type"
           end.

(** Modelled from the spec: [.optional()] of zod, which is not among the
    sources; [undefined] passes as it is, anything else goes to the inner
    schema. *)
Definition z_optional {A} (inner : Schema A) : Schema (option A) :=
  fun v => match v with
           | VUndefined => Success None
           | _ => and_then (inner v) (fun a => Success (Some a))
           end.

(** Modelled from the spec: [.default(d)] of zod, which is not among the
    sources; [undefined] is replaced by the default before the inner schema
    parses. *)
Definition z_default {A} (d : value) (inner : Schema A) : Schema A :=
  fun v => inner (match v with VUndefined => d | _ => v end).

(** Modelled from the spec: [.optional().default(d)] of zod, which is not
    among the sources; as [z_default], and the output type drops
    [undefined] ([d'] is the default as a typed value; the inner optional
    schema never yields [undefined] here, since it is never given it). *)
Definition z_optional_default {A} (d : value) (d' : A) (inner : Schema A)
  : Schema A :=
  fun v => match z_default d (z_optional inner) v with
           | Success (Some a) => Success a
           | Success None => Success d'
           | Failure issue => Failure issue
           end.

(** Modelled from the spec: the outer check of [z.object({...})] of zod,
    which is not among the sources; the input must be an object, whose own
    properties the shape's schemas then parse (a missing property parses as
    [undefined], unknown properties are dropped). *)
Definition z_object_props (args : value) : ParseResult (list (string * value)) :=
  match args with
  | VObj props => Success props
  | _ => Failure "invalid_type"
  end.

(** ** src/tools/getOrders.ts *)

Module getOrders.

(** The members of [z.enum([...])] for [sortKey]. *)
Inductive SortKey : Type :=
| CREATED_AT | CUSTOMER_NAME | ID | ORDER_NUMBER
| PROCESSED_AT | TOTAL_PRICE | UPDATED_AT.

(** The string each member is at run time. *)
Definition SortKey_string (k : SortKey) : string :=
  match k with
  | CREATED_AT => "CREATED_AT"
  | CUSTOMER_NAME => "CUSTOMER_NAME"
  | ID => "ID"
  | ORDER_NUMBER => "ORDER_NUMBER"
  | PROCESSED_AT => "PROCESSED_AT"
  | TOTAL_PRICE => "TOTAL_PRICE"
  | UPDATED_AT => "UPDATED_AT"
  end.

(** [type GetOrdersInput = z.infer<typeof GetOrdersInputSchema>] *)
Record GetOrdersInput : Type := mkInput {
  query : option string;
  limit : number;
  after : option string;
  before : option string;
  reverse : bool;
  sortKey : SortKey
}.

Definition SortKey_members : list (string * SortKey) :=
  map (fun k => (SortKey_string k, k))
      [CREATED_AT; CUSTOMER_NAME; ID; ORDER_NUMBER;
       PROCESSED_AT; TOTAL_PRICE; UPDATED_AT].

(** [const GetOrdersInputSchema = z.object({ ... })] *)
Definition GetOrdersInputSchema : Schema GetOrdersInput :=
  fun args =>
    and_then (z_object_props args) (fun props =>
    and_then (z_optional z_string (lookup "query" props)) (fun query =>
    and_then (z_default (VNum ten) z_number (lookup "limit" props)) (fun limit =>
    and_then (z_optional z_string (lookup "after" props)) (fun after =>
    and_then (z_optional z_string (lookup "before" props)) (fun before =>
    and_then (z_optional_default (VBool false) false z_boolean
                                 (lookup "reverse" props)) (fun reverse =>
    and_then (z_optional_default (VStr "PROCESSED_AT") PROCESSED_AT
                                 (z_enum SortKey_members)
                                 (lookup "sortKey" props)) (fun sortKey =>
    Success (mkInput query limit after before reverse sortKey)))))))).

(** The document built by the [gql] tag inside [execute] (the local
    [const query]); the template has no interpolation. *)
Definition document : string := "
        query GetOrders(
          $first: Int
          $last: Int
          $after: String
          $before: String
          $query: String
          $reverse: Boolean
          $sortKey: OrderSortKeys
        ) {
          orders(
            first: $first
            last: $last
            after: $after
            before: $before
            query: $query
            reverse: $reverse
            sortKey: $sortKey
          ) {
            pageInfo {
              hasNextPage
              hasPreviousPage
              startCursor
              endCursor
            }
            edges {
              cursor
              node {
                id
                name
                email
                phone
                createdAt
                updatedAt
                processedAt
                closedAt
                cancelledAt
                cancelReason
                confirmed
                test
                displayFinancialStatus
                displayFulfillmentStatus
                subtotalPriceSet {
                  shopMoney {
                    amount
                    currencyCode
                  }
                }
                totalPriceSet {
                  shopMoney {
                    amount
                    currencyCode
                  }
                }
                totalTaxSet {
                  shopMoney {
                    amount
                    currencyCode
                  }
                }
                totalShippingPriceSet {
                  shopMoney {
                    amount
                    currencyCode
                  }
                }
                totalDiscountsSet {
                  shopMoney {
                    amount
                    currencyCode
                  }
                }
                customer {
                  id
                  firstName
                  lastName
                  email
                  phone
                }
                shippingAddress {
                  address1
                  address2
                  city
                  province
                  country
                  zip
                }
                billingAddress {
                  address1
                  address2
                  city
                  province
                  country
                  zip
                }
                lineItems(first: 10) {
                  edges {
                    node {
                      id
                      title
                      quantity
                      originalUnitPriceSet {
                        shopMoney {
                          amount
                          currencyCode
                        }
                      }
                      discountedUnitPriceSet {
                        shopMoney {
                          amount
                          currencyCode
                        }
                      }
                      variant {
                        id
                        title
                        sku
                        image {
                          url
                          altText
                        }
                      }
                      product {
                        id
                        title
                        handle
                      }
                    }
                  }
                }
                fulfillments {
                  id
                  status
                  createdAt
                  updatedAt
                  trackingInfo {
                    company
                    number
                    url
                  }
                }
                tags
                note
              }
            }
          }
        }
      ".

(** [initialize(client) { shopifyClient = client; }] *)
Definition initialize (client : GraphQLClient) : M unit :=
  write_shopifyClient client.

(** The [variables] object: [{ reverse, sortKey }], then the pagination
    properties, then the search query. *)
Definition variables_of (input : GetOrdersInput) : value :=
  let searchQuery := query input in
  let variables :=
    [("reverse", VBool (reverse input));
     ("sortKey", VStr (SortKey_string (sortKey input)))] in
  let variables :=
    if truthy (of_optional (before input)) then
      let variables := assign "last" (VNum (limit input)) variables in
      assign "before" (of_optional (before input)) variables
    else
      let variables := assign "first" (VNum (limit input)) variables in
      if truthy (of_optional (after input)) then
        assign "after" (of_optional (after input)) variables
      else variables in
  let variables :=
    if truthy (of_optional searchQuery) then
      assign "query" (of_optional searchQuery) variables
    else variables in
  VObj variables.

(** The object literal returned after the request:
    [{ orders: edges.map(e => e.node), pageInfo, cursors: edges.map(e => e.cursor) }],
    its three property values evaluated in this order. *)
Definition reshape (data : value) : completion value :=
  and_next (get_prop data "orders") (fun data_orders =>
  and_next (get_prop data_orders "edges") (fun edges =>
  and_next (array_map "data.orders.edges" edges
                      (fun edge => get_prop edge "node")) (fun orders =>
  and_next (get_prop data "orders") (fun data_orders =>
  and_next (get_prop data_orders "pageInfo") (fun pageInfo =>
  and_next (get_prop data "orders") (fun data_orders =>
  and_next (get_prop data_orders "edges") (fun edges =>
  and_next (array_map "data.orders.edges" edges
                      (fun edge => get_prop edge "cursor")) (fun cursors =>
  Normal (VObj [("orders", orders); ("pageInfo", pageInfo);
                ("cursors", cursors)]))))))))).

(** The [try] block of [execute]. *)
Definition execute_try (input : GetOrdersInput) : M value :=
  let variables := variables_of input in
  client <- read_shopifyClient ;;
  data <- await_request client document variables ;;
  lift (reshape data).

(** The [catch] block of [execute]. *)
Definition execute_catch (error : JsError) : M value :=
  throw (Error ("Failed to fetch orders: " ++ message error)).

Definition execute (input : GetOrdersInput) : M value :=
  try_catch (execute_try input) execute_catch.

End getOrders.

(** ** src/tools/getOrderById.ts *)

Module getOrderById.

(** [type GetOrderByIdInput = z.infer<typeof GetOrderByIdInputSchema>] *)
Record GetOrderByIdInput : Type := mkInput { orderId : string }.

(** [const GetOrderByIdInputSchema = z.object({ orderId: z.string().min(1) })] *)
Definition GetOrderByIdInputSchema : Schema GetOrderByIdInput :=
  fun args =>
    and_then (z_object_props args) (fun props =>
    and_then (z_min 1 z_string (lookup "orderId" props)) (fun orderId =>
    Success (mkInput orderId))).

(** The document built by the [gql] tag inside [execute] (the local
    [const query]); the template has no interpolation. *)
Definition document : string := "
        query GetOrderById($id: ID!) {
          order(id: $id) {
            id
            name
            email
            phone
            createdAt
            updatedAt
            processedAt
            closedAt
            cancelledAt
            cancelReason
            confirmed
            test
            displayFinancialStatus
            displayFulfillmentStatus
            subtotalPriceSet {
              shopMoney {
                amount
                currencyCode
              }
              presentmentMoney {
                amount
                currencyCode
              }
            }
            totalPriceSet {
              shopMoney {
                amount
                currencyCode
              }
              presentmentMoney {
                amount
                currencyCode
              }
            }
            totalTaxSet {
              shopMoney {
                amount
                currencyCode
              }
              presentmentMoney {
                amount
                currencyCode
              }
            }
            totalShippingPriceSet {
              shopMoney {
                amount
                currencyCode
              }
              presentmentMoney {
                amount
                currencyCode
              }
            }
            totalDiscountsSet {
              shopMoney {
                amount
                currencyCode
              }
              presentmentMoney {
                amount
                currencyCode
              }
            }
            currentTotalPriceSet {
              shopMoney {
                amount
                currencyCode
              }
              presentmentMoney {
                amount
                currencyCode
              }
            }
            customer {
              id
              firstName
              lastName
              email
              phone
              defaultAddress {
                address1
                address2
                city
                province
                country
                zip
              }
            }
            shippingAddress {
              address1
              address2
              city
              province
              country
              zip
              name
              company
              phone
            }
            billingAddress {
              address1
              address2
              city
              province
              country
              zip
              name
              company
              phone
            }
            lineItems(first: 250) {
              edges {
                node {
                  id
                  title
                  quantity
                  originalUnitPriceSet {
                    shopMoney {
                      amount
                      currencyCode
                    }
                    presentmentMoney {
                      amount
                      currencyCode
                    }
                  }
                  discountedUnitPriceSet {
                    shopMoney {
                      amount
                      currencyCode
                    }
                    presentmentMoney {
                      amount
                      currencyCode
                    }
                  }
                  originalTotalSet {
                    shopMoney {
                      amount
                      currencyCode
                    }
                    presentmentMoney {
                      amount
                      currencyCode
                    }
                  }
                  discountedTotalSet {
                    shopMoney {
                      amount
                      currencyCode
                    }
                    presentmentMoney {
                      amount
                      currencyCode
                    }
                  }
                  variant {
                    id
                    title
                    sku
                    price
                    image {
                      url
                      altText
                    }
                  }
                  product {
                    id
                    title
                    handle
                    productType
                    vendor
                  }
                  customAttributes {
                    key
                    value
                  }
                }
              }
            }
            fulfillments {
              id
              status
              createdAt
              updatedAt
              deliveredAt
              estimatedDeliveryAt
              inTransitAt
              trackingInfo {
                company
                number
                url
              }
              fulfillmentLineItems(first: 250) {
                edges {
                  node {
                    id
                    quantity
                    lineItem {
                      id
                      title
                    }
                  }
                }
              }
            }
            shippingLine {
              title
              code
              source
              originalPriceSet {
                shopMoney {
                  amount
                  currencyCode
                }
                presentmentMoney {
                  amount
                  currencyCode
                }
              }
              discountedPriceSet {
                shopMoney {
                  amount
                  currencyCode
                }
                presentmentMoney {
                  amount
                  currencyCode
                }
              }
            }
            transactions(first: 250) {
              id
              kind
              status
              amount
              gateway
              createdAt
              processedAt
              errorCode
            }
            refunds {
              id
              createdAt
              note
              totalRefundedSet {
                shopMoney {
                  amount
                  currencyCode
                }
                presentmentMoney {
                  amount
                  currencyCode
                }
              }
              refundLineItems(first: 250) {
                edges {
                  node {
                    quantity
                    restockType
                    lineItem {
                      id
                      title
                    }
                  }
                }
              }
            }
            risks(first: 10) {
              level
              message
              display
            }
            discountApplications(first: 10) {
              edges {
                node {
                  allocationMethod
                  targetSelection
                  targetType
                  value {
                    ... on MoneyV2 {
                      amount
                      currencyCode
                    }
                    ... on PricingPercentageValue {
                      percentage
                    }
                  }
                }
              }
            }
            tags
            note
            customerLocale
            sourceIdentifier
            sourceName
          }
        }
      ".

(** [initialize(client) { shopifyClient = client; }] *)
Definition initialize (client : GraphQLClient) : M unit :=
  write_shopifyClient client.

Definition variables_of (input : GetOrderByIdInput) : value :=
  VObj [("id", VStr (orderId input))].

(** [if (!data.order) throw new Error(...); return data.order;] *)
Definition unwrap (input : GetOrderByIdInput) (data : value) : completion value :=
  and_next (get_prop data "order") (fun data_order =>
    if negb (truthy data_order) then
      Thrown (Error ("Order not found with ID: " ++ orderId input))
    else get_prop data "order").

(** The [try] block of [execute]. *)
Definition execute_try (input : GetOrderByIdInput) : M value :=
  let variables := variables_of input in
  client <- read_shopifyClient ;;
  data <- await_request client document variables ;;
  lift (unwrap input data).

(** The [catch] block of [execute]. *)
Definition execute_catch (error : JsError) : M value :=
  throw (Error ("Failed to fetch order: " ++ message error)).

Definition execute (input : GetOrderByIdInput) : M value :=
  try_catch (execute_try input) execute_catch.

End getOrderById.

(** ** src/index.ts *)

Module index.

(** What a tool call resolves with:
    [{ content: [{ type: "text", text: JSON.stringify(result) }] }], the text
    kept as the value it serialises, or the error result
    [{ content: [{ type: "text", text }], isError: true }]. *)
Inductive ToolResult : Type :=
| TextContent (result : value)
| ToolError (text : string).

(** [new GraphQLClient(`https://${MYSHOPIFY_DOMAIN}/admin/api/2025-01/graphql.json`,
    { headers })] *)
Definition shopifyClient (MYSHOPIFY_DOMAIN SHOPIFY_ACCESS_TOKEN : string)
  : GraphQLClient :=
  mkClient ("https://" ++ MYSHOPIFY_DOMAIN ++ "/admin/api/2025-01/graphql.json")
           [("X-Shopify-Access-Token", SHOPIFY_ACCESS_TOKEN);
            ("Content-Type", "application/json")].

(** Modelled from the spec: [McpServer.tool] of the MCP SDK, which is not
    among the sources; a call of the tool parses the arguments with the
    registered shape first (each tool validates its input) and runs the
    callback on the parsed input only when that succeeds, otherwise the call
    fails with an invalid-params error.  What the callback throws is caught
    and becomes the error result whose text is the message of the error (the
    failure is mapped into a descriptive message). *)
Definition server_tool {A} (tool_name : string) (shape : Schema A)
           (cb : A -> M ToolResult) (args : value) : M ToolResult :=
  match shape args with
  | Failure issue =>
      throw (mkError "McpError"
               ("MCP error -32602: Invalid arguments for tool " ++ tool_name
                ++ ": " ++ issue))
  | Success input =>
      try_catch (cb input) (fun error => ret (ToolError (message error)))
  end.

(** The shape literal given to [server.tool("get-orders", { ... }, ...)]. *)
Definition get_orders_shape : Schema getOrders.GetOrdersInput :=
  fun args =>
    and_then (z_object_props args) (fun props =>
    and_then (z_optional z_string (lookup "query" props)) (fun query =>
    and_then (z_default (VNum ten) z_number (lookup "limit" props)) (fun limit =>
    and_then (z_optional z_string (lookup "after" props)) (fun after =>
    and_then (z_optional z_string (lookup "before" props)) (fun before =>
    and_then (z_optional_default (VBool false) false z_boolean
                                 (lookup "reverse" props)) (fun reverse =>
    and_then (z_optional_default (VStr "PROCESSED_AT") getOrders.PROCESSED_AT
                                 (z_enum getOrders.SortKey_members)
                                 (lookup "sortKey" props)) (fun sortKey =>
    Success (getOrders.mkInput query limit after before reverse sortKey)))))))).

(** [async (args) => { const result = await getOrders.execute(args); return {...}; }] *)
Definition get_orders_cb (args : getOrders.GetOrdersInput) : M ToolResult :=
  result <- getOrders.execute args ;;
  ret (TextContent result).

Definition get_orders_tool : value -> M ToolResult :=
  server_tool "get-orders" get_orders_shape get_orders_cb.

(** [async (args) => { const result = await getOrderById.execute(args); return {...}; }] *)
Definition get_order_by_id_cb (args : getOrderById.GetOrderByIdInput) : M ToolResult :=
  result <- getOrderById.execute args ;;
  ret (TextContent result).

(** Registered with [getOrderById.schema.shape]. *)
Definition get_order_by_id_tool : value -> M ToolResult :=
  server_tool "get-order-by-id" getOrderById.GetOrderByIdInputSchema
              get_order_by_id_cb.

End index.

(** ** Vocabulary of the statements *)

(** Running what a tool does after [await] hands it the client's answer. *)
Definition settle (post : value -> completion value) (o : Outcome)
  : completion value :=
  match o with
  | Resolved data => post data
  | Rejected e => Thrown e
  end.

(** What the [catch] block makes of a completion of the [try] block. *)
Definition rethrown (prefix : string) (c : completion value) : completion value :=
  match c with
  | Normal v => Normal v
  | Thrown e => Thrown (Error (prefix ++ message e))
  end.

Definition no_client : JsError :=
  TypeError "Cannot read properties of undefined (reading 'request')".


(** The three components of a finished run. *)
Definition completion_of {A} (r : (completion A * ModuleVars) * list Request)
  : completion A := fst (fst r).
Definition vars_of {A} (r : (completion A * ModuleVars) * list Request)
  : ModuleVars := snd (fst r).
Definition log_of {A} (r : (completion A * ModuleVars) * list Request)
  : list Request := snd r.

(** As in [index.ts]: [initialize(client)] first, a call of [execute] later. *)
Definition getOrders_session (c : GraphQLClient)
           (input : getOrders.GetOrdersInput) : M value :=
  _ <- getOrders.initialize c ;; getOrders.execute input.

Definition getOrderById_session (c : GraphQLClient)
           (input : getOrderById.GetOrderByIdInput) : M value :=
  _ <- getOrderById.initialize c ;; getOrderById.execute input.

(** An optional string of the input is present when it is not [undefined]. *)
Definition present (o : option string) : bool :=
  match o with
  | Some _ => true
  | None => false
  end.

(** What [if (before)], [if (after)] and [if (searchQuery)] test. *)
Definition given (o : option string) : bool := truthy (of_optional o).

(** The pagination rule read on the presence of the cursors: [before]
    present selects backward paging, [after] is sent when present. *)
Definition pagination_by_presence (input : getOrders.GetOrdersInput)
           (vars : value) : Prop :=
  (if present (getOrders.before input) then
     field vars "last" = VNum (getOrders.limit input) /\
     field vars "before" = of_optional (getOrders.before input) /\
     contains vars "first" = false /\
     contains vars "after" = false
   else
     field vars "first" = VNum (getOrders.limit input) /\
     contains vars "after" = present (getOrders.after input) /\
     contains vars "last" = false /\
     contains vars "before" = false)
  /\ contains vars "first" && contains vars "last" = false.

(** The pagination rule on the truth value of the cursors, as [execute]
    tests them. *)
Definition pagination_by_truthiness (input : getOrders.GetOrdersInput)
           (vars : value) : Prop :=
  (if given (getOrders.before input) then
     field vars "last" = VNum (getOrders.limit input) /\
     field vars "before" = of_optional (getOrders.before input) /\
     contains vars "first" = false /\
     contains vars "after" = false
   else
     field vars "first" = VNum (getOrders.limit input) /\
     contains vars "after" = given (getOrders.after input) /\
     (if given (getOrders.after input)
      then field vars "after" = of_optional (getOrders.after input)
      else True) /\
     contains vars "last" = false /\
     contains vars "before" = false)
  /\ contains vars "first" && contains vars "last" = false.

(** A client at a shop, and a network that answers every request with [o]. *)
Definition example_client : GraphQLClient :=
  index.shopifyClient "example.myshopify.com" "shpat_token".

Definition always (o : Outcome) : Network := fun _ _ => o.

(** [{ before: "" }] after the schema's defaults. *)
Definition input_empty_before : getOrders.GetOrdersInput :=
  getOrders.mkInput None ten None (Some "") false getOrders.PROCESSED_AT.

(** [{ limit: 5, before: "c9", after: "c1" }] after the schema's defaults. *)
Definition input_both_cursors : getOrders.GetOrdersInput :=
  getOrders.mkInput None five (Some "c1") (Some "c9") false getOrders.PROCESSED_AT.

(** The shape [execute] of get-orders returns for the edges [edges] and the
    page information [pageInfo]. *)
Definition flattened (edges : list value) (pageInfo : value) : value :=
  VObj [("orders", VArr (map (fun edge => field edge "node") edges));
        ("pageInfo", pageInfo);
        ("cursors", VArr (map (fun edge => field edge "cursor") edges))].

(** A response with two orders. *)
Definition two_orders : value :=
  VObj [("orders",
         VObj [("edges",
                VArr [VObj [("cursor", VStr "c1");
                            ("node", VObj [("id", VStr "gid://shopify/Order/1")])];
                      VObj [("cursor", VStr "c2");
                            ("node", VObj [("id", VStr "gid://shopify/Order/2")])]]);
               ("pageInfo",
                VObj [("hasNextPage", VBool true);
                      ("hasPreviousPage", VBool false)])])].

(** [{ limit: 2 }] after the schema's defaults. *)
Definition input_first_two : getOrders.GetOrdersInput :=
  getOrders.mkInput None two None None false getOrders.PROCESSED_AT.

(** Responses of the order query. *)
Definition order_null : value := VObj [("order", VNull)].
Definition order_found : value :=
  VObj [("order", VObj [("id", VStr "gid://shopify/Order/1");
                        ("name", VStr "#1001")])].

Definition input_order_1 : getOrderById.GetOrderByIdInput :=
  getOrderById.mkInput "gid://shopify/Order/1".

(** ** Reading a GraphQL document *)

Definition is_space (a : ascii) : bool :=
  match a with
  | " "%char | "009"%char | "010"%char | "013"%char => true
  | _ => false
  end.

Definition is_letter (a : ascii) : bool :=
  let n := nat_of_ascii a in
  (Nat.leb 97 n && Nat.leb n 122) || (Nat.leb 65 n && Nat.leb n 90).

Fixpoint skip_spaces (s : string) : string :=
  match s with
  | String a rest => if is_space a then skip_spaces rest else s
  | EmptyString => EmptyString
  end.

Fixpoint take_letters (s : string) : string :=
  match s with
  | String a rest => if is_letter a then String a (take_letters rest) else EmptyString
  | EmptyString => EmptyString
  end.

(** The first word of a document: its operation type when it is written out. *)
Definition operation_keyword (doc : string) : string :=
  take_letters (skip_spaces doc).

(** Does [needle] occur in [hay]? *)
Fixpoint occurs (needle hay : string) : bool :=
  String.prefix needle hay ||
  match hay with
  | String _ rest => occurs needle rest
  | EmptyString => false
  end.

(** The input with its [query] replaced. *)
Definition with_query (q : option string) (input : getOrders.GetOrdersInput)
  : getOrders.GetOrdersInput :=
  getOrders.mkInput q (getOrders.limit input) (getOrders.after input)
                    (getOrders.before input) (getOrders.reverse input)
                    (getOrders.sortKey input).

(** A network whose answer depends on what was asked before: it fails the
    first request and serves the two orders afterwards. *)
Definition flaky : Network :=
  fun log _ =>
    match log with
    | [] => Rejected (Error "ECONNRESET")
    | _ :: _ => Resolved two_orders
    end.

Definition other_client : GraphQLClient :=
  index.shopifyClient "other.myshopify.com" "shpat_other".

(** The strings [z.enum] lists for [sortKey]. *)
Definition sortKey_names : list string :=
  ["CREATED_AT"; "CUSTOMER_NAME"; "ID"; "ORDER_NUMBER";
   "PROCESSED_AT"; "TOTAL_PRICE"; "UPDATED_AT"].

(** As in [index.ts]: [initialize(client)] first, a call of the registered
    tool later. *)
Definition get_orders_call (c : GraphQLClient) (args : value) : M index.ToolResult :=
  _ <- getOrders.initialize c ;; index.get_orders_tool args.

(** The default of [limit] sent as [last] whenever [before] is present. *)
Definition default_limit_by_presence (input : getOrders.GetOrdersInput)
           (vars : value) : Prop :=
  if present (getOrders.before input)
  then field vars "last" = VNum ten
  else field vars "first" = VNum ten.

(** Arguments of tool calls. *)
Definition args_empty_orderId : value := VObj [("orderId", VStr "")].
Definition args_bad_sortKey : value := VObj [("sortKey", VStr "NAME")].
Definition args_none : value := VObj [].
Definition args_empty_before : value := VObj [("before", VStr "")].
Definition args_before : value := VObj [("before", VStr "c9")].

(** [{ before: "c9" }] after the schema's defaults. *)
Definition input_before : getOrders.GetOrdersInput :=
  getOrders.mkInput None ten None (Some "c9") false getOrders.PROCESSED_AT.

(** ** Further vocabulary: objects, repeated calls, the other tools *)

(** The own property names of an object, in insertion order. *)
Definition keys (v : value) : list string :=
  match v with
  | VObj props => map fst props
  | _ => []
  end.

(** The own property values of an object, in insertion order. *)
Definition property_values (v : value) : list value :=
  match v with
  | VObj props => map snd props
  | _ => []
  end.

(** The variable names the GetOrders document declares. *)
Definition declared_variables : list string :=
  ["first"; "last"; "after"; "before"; "query"; "reverse"; "sortKey"].

(** [typeof v === "string"], ["number"], ["boolean"]. *)
Definition is_string (v : value) : bool :=
  match v with VStr _ => true | _ => false end.
Definition is_number (v : value) : bool :=
  match v with VNum _ => true | _ => false end.
Definition is_boolean (v : value) : bool :=
  match v with VBool _ => true | _ => false end.

(** Neither [null] nor [undefined]. *)
Definition defined (v : value) : bool :=
  match nullish_name v with
  | Some _ => false
  | None => true
  end.

(** Invocations one after the other, as the server makes them: each runs to
    its end, with the module variable as the one before left it, and a throw
    of one does not stop the next.  The completions are collected in order. *)
Fixpoint invocations {A} (calls : list (M A)) (s : ModuleVars)
  : Proc (list (completion A) * ModuleVars) :=
  match calls with
  | [] => Ret ([], s)
  | call :: rest =>
      bind_proc (call s) (fun r =>
      bind_proc (invocations rest (snd r)) (fun rs =>
      Ret (fst r :: fst rs, snd rs)))
  end.

(** [initialize(client)] at start-up, then the invocations. *)
Definition initialized_invocations {A} (init : M unit) (calls : list (M A))
           (s : ModuleVars) : Proc (list (completion A) * ModuleVars) :=
  bind_proc (init s) (fun r => invocations calls (snd r)).

(** As in [index.ts]: [initialize(client)] first, a call of the registered
    get-order-by-id tool later. *)
Definition get_order_by_id_call (c : GraphQLClient) (args : value)
  : M index.ToolResult :=
  _ <- getOrderById.initialize c ;; index.get_order_by_id_tool args.

(** What a registered tool call makes of the completion of [execute]: the
    result wrapped as text content, a thrown error as the error result that
    holds its message. *)
Definition wrapped (c : completion value) : completion index.ToolResult :=
  match c with
  | Normal v => Normal (index.TextContent v)
  | Thrown e => Normal (index.ToolError (message e))
  end.

(** ** The other shapes registered in src/index.ts *)

Module shapes.

(** [get-products]: [{ searchTitle, limit, after, before, reverse }] *)
Record GetProductsInput : Type := mkProducts {
  products_searchTitle : option string;
  products_limit : number;
  products_after : option string;
  products_before : option string;
  products_reverse : bool
}.

Definition get_products : Schema GetProductsInput :=
  fun args =>
    and_then (z_object_props args) (fun props =>
    and_then (z_optional z_string (lookup "searchTitle" props)) (fun searchTitle =>
    and_then (z_default (VNum ten) z_number (lookup "limit" props)) (fun limit =>
    and_then (z_optional z_string (lookup "after" props)) (fun after =>
    and_then (z_optional z_string (lookup "before" props)) (fun before =>
    and_then (z_optional_default (VBool false) false z_boolean
                                 (lookup "reverse" props)) (fun reverse =>
    Success (mkProducts searchTitle limit after before reverse))))))).

(** [get-product-by-id]: [{ productId: z.string().min(1) }] *)
Record GetProductByIdInput : Type := mkProductById { productId : string }.

Definition get_product_by_id : Schema GetProductByIdInput :=
  fun args =>
    and_then (z_object_props args) (fun props =>
    and_then (z_min 1 z_string (lookup "productId" props)) (fun productId =>
    Success (mkProductById productId))).

(** [get-collections], [get-pages], [get-blogs]: [{ searchTitle, limit }],
    written out three times. *)
Record ListingInput : Type := mkListing {
  searchTitle : option string;
  limit : number
}.

Definition get_collections : Schema ListingInput :=
  fun args =>
    and_then (z_object_props args) (fun props =>
    and_then (z_optional z_string (lookup "searchTitle" props)) (fun searchTitle =>
    and_then (z_default (VNum ten) z_number (lookup "limit" props)) (fun limit =>
    Success (mkListing searchTitle limit)))).

Definition get_pages : Schema ListingInput :=
  fun args =>
    and_then (z_object_props args) (fun props =>
    and_then (z_optional z_string (lookup "searchTitle" props)) (fun searchTitle =>
    and_then (z_default (VNum ten) z_number (lookup "limit" props)) (fun limit =>
    Success (mkListing searchTitle limit)))).

Definition get_blogs : Schema ListingInput :=
  fun args =>
    and_then (z_object_props args) (fun props =>
    and_then (z_optional z_string (lookup "searchTitle" props)) (fun searchTitle =>
    and_then (z_default (VNum ten) z_number (lookup "limit" props)) (fun limit =>
    Success (mkListing searchTitle limit)))).

(** [get-articles]: [{ blogId: z.string().min(1), searchTitle, limit }] *)
Record GetArticlesInput : Type := mkArticles {
  blogId : string;
  articles_searchTitle : option string;
  articles_limit : number
}.

Definition get_articles : Schema GetArticlesInput :=
  fun args =>
    and_then (z_object_props args) (fun props =>
    and_then (z_min 1 z_string (lookup "blogId" props)) (fun blogId =>
    and_then (z_optional z_string (lookup "searchTitle" props)) (fun searchTitle =>
    and_then (z_default (VNum ten) z_number (lookup "limit" props)) (fun limit =>
    Success (mkArticles blogId searchTitle limit))))).

End shapes.

(** ** Start-up of src/index.ts *)

(** [process.env]: names to strings. *)
Definition Env : Type := list (string * string).

Fixpoint env_get (k : string) (env : Env) : option string :=
  match env with
  | [] => None
  | (k', v) :: rest => if String.eqb k k' then Some v else env_get k rest
  end.

Fixpoint env_set (k v : string) (env : Env) : Env :=
  match env with
  | [] => [(k, v)]
  | (k', v') :: rest =>
      if String.eqb k k' then (k', v) :: rest else (k', v') :: env_set k v rest
  end.

(** [a || b] *)
Definition or_else (a b : value) : value := if truthy a then a else b.

(** How start-up ends: [process.exit(code)] after the lines written with
    [console.error], or the server set up on a client that every tool was
    initialised with. *)
Inductive Startup : Type :=
| Exited (code : nat) (stderr : list string) (env : Env)
| Started (client : GraphQLClient) (env : Env).

Definition token_required : list string :=
  ["Error: SHOPIFY_ACCESS_TOKEN is required.";
   "Please provide it via command line argument or .env file.";
   "  Command line: --accessToken=your_token"].

Definition domain_required : list string :=
  ["Error: MYSHOPIFY_DOMAIN is required.";
   "Please provide it via command line argument or .env file.";
   "  Command line: --domain=your-store.myshopify.com"].

Section Script.

(** The decimal text of a number ([Number.prototype.toString]), which the
    sources do not contain. *)
Variable Number_toString : number -> string.

(** [String(v)], as a template literal and an assignment to [process.env]
    apply it; an array is its elements joined by commas, with [null] and
    [undefined] elements empty. *)
Fixpoint to_string (v : value) : string :=
  match v with
  | VUndefined => "undefined"
  | VNull => "null"
  | VBool true => "true"
  | VBool false => "false"
  | VNum n => Number_toString n
  | VStr s => s
  | VArr elems =>
      (fix join (l : list value) : string :=
         match l with
         | [] => ""
         | x :: rest =>
             let text := match x with
                         | VUndefined | VNull => ""
                         | _ => to_string x
                         end in
             match rest with
             | [] => text
             | _ :: _ => (text ++ "," ++ join rest)%string
             end
         end) elems
  | VObj _ => "[object Object]"
  end.

(** [argv.accessToken || process.env.SHOPIFY_ACCESS_TOKEN] *)
Definition SHOPIFY_ACCESS_TOKEN (argv : value) (env : Env) : value :=
  or_else (field argv "accessToken") (of_optional (env_get "SHOPIFY_ACCESS_TOKEN" env)).

(** [argv.domain || process.env.MYSHOPIFY_DOMAIN] *)
Definition MYSHOPIFY_DOMAIN (argv : value) (env : Env) : value :=
  or_else (field argv "domain") (of_optional (env_get "MYSHOPIFY_DOMAIN" env)).

(** The script from the resolution of the two settings to the creation of the
    client: [argv] is what [minimist] made of the command line, [env] is
    [process.env] after [dotenv.config()].  The two settings are written back
    to [process.env] before they are checked; the header holds the token as
    the text it is sent as. *)
Definition startup (argv : value) (env : Env) : Startup :=
  let token := SHOPIFY_ACCESS_TOKEN argv env in
  let domain := MYSHOPIFY_DOMAIN argv env in
  let env := env_set "SHOPIFY_ACCESS_TOKEN" (to_string token) env in
  let env := env_set "MYSHOPIFY_DOMAIN" (to_string domain) env in
  if negb (truthy token) then Exited 1 token_required env
  else if negb (truthy domain) then Exited 1 domain_required env
  else
    Started
      (mkClient ("https://" ++ to_string domain ++ "/admin/api/2025-01/graphql.json")
                [("X-Shopify-Access-Token", to_string token);
                 ("Content-Type", "application/json")])
      env.

End Script.

(** A setting is supplied as the text [t]: on the command line, or, with
    nothing truthy there, in the environment. *)
Definition supplies (cli : value) (from_env : option string) (t : string) : Prop :=
  t <> "" /\
  (cli = VStr t \/ (truthy cli = false /\ from_env = Some t)).

(** A setting is supplied nowhere: nothing truthy on the command line, and
    the environment variable unset or empty. *)
Definition lacks (cli : value) (from_env : option string) : Prop :=
  truthy cli = false /\ (from_env = None \/ from_env = Some "").

(** [{ query: "status:open", limit: 5, after: "c1" }] after the schema's
    defaults. *)
Definition input_open_orders : getOrders.GetOrdersInput :=
  getOrders.mkInput (Some "status:open") five (Some "c1") None false
                    getOrders.PROCESSED_AT.

(** A response whose second edge is [null]. *)
Definition null_edge : value :=
  VObj [("orders",
         VObj [("edges",
                VArr [VObj [("cursor", VStr "c1");
                            ("node", VObj [("id", VStr "gid://shopify/Order/1")])];
                      VNull]);
               ("pageInfo", VObj [("hasNextPage", VBool false)])])].

(** Three get-orders inputs in a row. *)
Definition three_inputs : list getOrders.GetOrdersInput :=
  [input_first_two; input_empty_before; input_open_orders].

(** Arguments of get-orders with a fractional negative limit: [-2.5]. *)
Definition minus_two_and_a_half : number :=
  S754_finite true 5629499534213120 (-51).

(** Arguments of tool calls. *)
Definition args_order_1 : value := VObj [("orderId", VStr "gid://shopify/Order/1")].
Definition args_limit_text : value := VObj [("limit", VStr "10")].

(** A property that is present with a value of the wrong type. *)
Definition ill_typed (is_type : value -> bool) (v : value) : Prop :=
  v <> VUndefined /\ is_type v = false.

(** A property that is not a string of at least one character: missing, of
    another type, or empty. *)
Definition no_id (v : value) : Prop := forall s, v = VStr s -> s = "".

(** Settings for start-up: the token on the command line and in the
    environment, the domain in the environment only. *)
Definition argv_token : value := VObj [("_", VArr []); ("accessToken", VStr "shpat_cli")].
Definition env_both : Env :=
  [("SHOPIFY_ACCESS_TOKEN", "shpat_env"); ("MYSHOPIFY_DOMAIN", "shop.myshopify.com")].
Definition env_empty_domain : Env :=
  [("SHOPIFY_ACCESS_TOKEN", "shpat_env"); ("MYSHOPIFY_DOMAIN", "")].
Definition argv_nothing : value := VObj [("_", VArr [])].

(** A rendering of numbers, for running start-up on concrete settings that
    hold no number. *)
Definition no_numbers : number -> string := fun _ => "".

Definition args_null_query : value := VObj [("query", VNull)].
Definition args_no_id : value := VObj [].

(** The whole script on one call of get-orders: start-up, [initialize] with
    the client it created, then the registered tool on the arguments; there
    is nothing to call when start-up exited. *)
Definition served_get_orders (Number_toString : number -> string)
           (argv : value) (env : Env) (args : value)
  : option (M index.ToolResult) :=
  match startup Number_toString argv env with
  | Started client _ => Some (get_orders_call client args)
  | Exited _ _ _ => None
  end.

(** The requests of a served call, none when nothing is served. *)
Definition served_requests (net : Network) (call : option (M index.ToolResult))
  : list Request :=
  match call with
  | Some m => log_of (run net [] (m (mkVars None)))
  | None => []
  end.

(** * Properties *)

(** ** Running programs of the monad *)

Section Running.

Context {R R' : Type}.

(** Running a sequence runs its first part, then the rest on the log so far. *)
Lemma run_bind_proc (net : Network) (p : Proc R) (f : R -> Proc R') :
  forall log,
    run net log (bind_proc p f) =
    run net (snd (run net log p)) (f (fst (run net log p))).
Proof.
  induction p as [r | rq k IH]; intro log; simpl.
  - reflexivity.
  - apply IH.
Qed.

(** A program only ever appends to the log. *)
Lemma run_extends (net : Network) (p : Proc R) :
  forall log, exists extra, snd (run net log p) = log ++ extra.
Proof.
  induction p as [r | rq k IH]; intro log; simpl.
  - exists []. now rewrite app_nil_r.
  - destruct (IH (net log rq) (log ++ [rq])) as [extra E].
    exists (rq :: extra). rewrite E, <- app_assoc. reflexivity.
Qed.

End Running.

(** [try]/[catch]: a normal completion of the body is the completion of the
    whole, a thrown one hands the error to the handler, which continues on
    the same log. *)
Lemma run_try_catch {A} (net : Network) (body : M A) (handler : JsError -> M A)
      (s : ModuleVars) (log : list Request) :
  run net log (try_catch body handler s) =
  match run net log (body s) with
  | ((Normal a, s'), log') => ((Normal a, s'), log')
  | ((Thrown e, s'), log') => run net log' (handler e s')
  end.
Proof.
  unfold try_catch. rewrite run_bind_proc.
  destruct (run net log (body s)) as [[[a | e] s'] log']; reflexivity.
Qed.

Lemma run_bind {A B} (net : Network) (m : M A) (f : A -> M B)
      (s : ModuleVars) (log : list Request) :
  run net log (bind m f s) =
  match run net log (m s) with
  | ((Normal a, s'), log') => run net log' (f a s')
  | ((Thrown e, s'), log') => ((Thrown e, s'), log')
  end.
Proof.
  unfold bind. rewrite run_bind_proc.
  destruct (run net log (m s)) as [[[a | e] s'] log']; reflexivity.
Qed.

Lemma run_lift {A} (net : Network) (c : completion A) s log :
  run net log (lift c s) = ((c, s), log).
Proof. destruct c; reflexivity. Qed.

Lemma run_await_request (net : Network) (o : option GraphQLClient) document
      variables s log :
  run net log (await_request o document variables s) =
  match o with
  | None =>
      ((Thrown (TypeError "Cannot read properties of undefined (reading 'request')"),
        s), log)
  | Some c =>
      let rq := mkRequest c document variables in
      ((match net log rq with
        | Resolved data => Normal data
        | Rejected e => Thrown e
        end, s), log ++ [rq])
  end.
Proof.
  destruct o as [c |]; simpl; [| reflexivity].
  destruct (net log _); reflexivity.
Qed.

(** ** Objects *)

Lemma lookup_missing k props : has_key k props = false -> lookup k props = VUndefined.
Proof.
  induction props as [| [k' v] rest IH]; simpl; [reflexivity |].
  destruct (String.eqb k k'); simpl; [discriminate | exact IH].
Qed.

Lemma has_key_assign k v k' props :
  has_key k' (assign k v props) = String.eqb k' k || has_key k' props.
Proof.
  induction props as [| [k0 v0] rest IH]; simpl.
  - reflexivity.
  - destruct (String.eqb k k0) eqn:E; simpl.
    + apply String.eqb_eq in E. subst k0.
      destruct (String.eqb k' k); reflexivity.
    + rewrite IH. destruct (String.eqb k' k0), (String.eqb k' k); reflexivity.
Qed.

Lemma lookup_assign_same k v props : lookup k (assign k v props) = v.
Proof.
  induction props as [| [k0 v0] rest IH]; simpl.
  - now rewrite String.eqb_refl.
  - destruct (String.eqb k k0) eqn:E; simpl; rewrite E; [reflexivity | exact IH].
Qed.

Lemma lookup_assign_other k v k' props :
  String.eqb k' k = false -> lookup k' (assign k v props) = lookup k' props.
Proof.
  intro N. induction props as [| [k0 v0] rest IH]; simpl.
  - now rewrite N.
  - destruct (String.eqb k k0) eqn:E; simpl.
    + apply String.eqb_eq in E. subst k0. now rewrite N.
    + rewrite IH. reflexivity.
Qed.

Lemma get_prop_normal v k x :
  get_prop v k = Normal x -> nullish_name v = None /\ x = field v k.
Proof.
  unfold get_prop. destruct (nullish_name v); [discriminate |].
  intro H. inversion H. split; reflexivity.
Qed.

(** A successful [map] of a property read is the plain [map] of the fields. *)
Lemma map_completion_get_prop k l ys :
  map_completion (fun e => get_prop e k) l = Normal ys ->
  ys = map (fun e => field e k) l /\
  Forall (fun e => nullish_name e = None) l.
Proof.
  revert ys. induction l as [| x rest IH]; simpl; intros ys H.
  - inversion H. split; constructor.
  - destruct (get_prop x k) as [y |] eqn:G; [| discriminate].
    apply get_prop_normal in G. destruct G as [Nx ->].
    destruct (map_completion _ rest) as [ys' |] eqn:E; [| discriminate].
    simpl in H. inversion H; subst ys. destruct (IH ys' eq_refl) as [-> F].
    split; [reflexivity | now constructor].
Qed.

Lemma map_completion_get_prop_total k l :
  Forall (fun e => nullish_name e = None) l ->
  map_completion (fun e => get_prop e k) l = Normal (map (fun e => field e k) l).
Proof.
  induction 1 as [| x rest Hx _ IH]; simpl; [reflexivity |].
  rewrite IH. unfold get_prop. rewrite Hx. reflexivity.
Qed.

(** ** What one call of each tool does *)

Lemma run_read_shopifyClient net s log :
  run net log (read_shopifyClient s) = ((Normal (shopifyClient s), s), log).
Proof. reflexivity. Qed.

Lemma getOrders_run_try net input s log :
  run net log (getOrders.execute_try input s) =
  match shopifyClient s with
  | None => ((Thrown no_client, s), log)
  | Some c =>
      let rq := mkRequest c getOrders.document (getOrders.variables_of input) in
      ((settle getOrders.reshape (net log rq), s), log ++ [rq])
  end.
Proof.
  unfold getOrders.execute_try.
  rewrite run_bind, run_read_shopifyClient, run_bind, run_await_request.
  destruct (shopifyClient s) as [c |]; [| reflexivity].
  cbv zeta. destruct (net log _) as [data | e]; [| reflexivity].
  rewrite run_lift. reflexivity.
Qed.

Lemma getOrders_run_execute net input s log :
  run net log (getOrders.execute input s) =
  match shopifyClient s with
  | None => ((rethrown "Failed to fetch orders: " (Thrown no_client), s), log)
  | Some c =>
      let rq := mkRequest c getOrders.document (getOrders.variables_of input) in
      ((rethrown "Failed to fetch orders: " (settle getOrders.reshape (net log rq)),
        s), log ++ [rq])
  end.
Proof.
  unfold getOrders.execute.
  rewrite run_try_catch, getOrders_run_try.
  destruct (shopifyClient s) as [c |]; [| reflexivity].
  cbv zeta. destruct (settle _ _); reflexivity.
Qed.

Lemma getOrderById_run_try net input s log :
  run net log (getOrderById.execute_try input s) =
  match shopifyClient s with
  | None => ((Thrown no_client, s), log)
  | Some c =>
      let rq := mkRequest c getOrderById.document (getOrderById.variables_of input) in
      ((settle (getOrderById.unwrap input) (net log rq), s), log ++ [rq])
  end.
Proof.
  unfold getOrderById.execute_try.
  rewrite run_bind, run_read_shopifyClient, run_bind, run_await_request.
  destruct (shopifyClient s) as [c |]; [| reflexivity].
  cbv zeta. destruct (net log _) as [data | e]; [| reflexivity].
  rewrite run_lift. reflexivity.
Qed.

Lemma getOrderById_run_execute net input s log :
  run net log (getOrderById.execute input s) =
  match shopifyClient s with
  | None => ((rethrown "Failed to fetch order: " (Thrown no_client), s), log)
  | Some c =>
      let rq := mkRequest c getOrderById.document (getOrderById.variables_of input) in
      ((rethrown "Failed to fetch order: "
                 (settle (getOrderById.unwrap input) (net log rq)), s), log ++ [rq])
  end.
Proof.
  unfold getOrderById.execute.
  rewrite run_try_catch, getOrderById_run_try.
  destruct (shopifyClient s) as [c |]; [| reflexivity].
  cbv zeta. destruct (settle _ _); reflexivity.
Qed.

(** [initialize(client)] followed by a program of the same module: the
    program runs with [client] installed, whatever was there before. *)
Lemma run_after_initialize_getOrders {A} net c (m : M A) s log :
  run net log (bind (getOrders.initialize c) (fun _ => m) s) =
  run net log (m (mkVars (Some c))).
Proof. rewrite run_bind. reflexivity. Qed.

Lemma run_after_initialize_getOrderById {A} net c (m : M A) s log :
  run net log (bind (getOrderById.initialize c) (fun _ => m) s) =
  run net log (m (mkVars (Some c))).
Proof. rewrite run_bind. reflexivity. Qed.

(** The shape written out in [index.ts] for get-orders is the tool's own
    schema. *)
Lemma get_orders_shape_is_schema :
  index.get_orders_shape = getOrders.GetOrdersInputSchema.
Proof. reflexivity. Qed.

(** [reshape] returns on every response whose [orders.edges] is an array
    without [null] or [undefined] entries. *)
Lemma reshape_flattens data edges :
  nullish_name data = None ->
  nullish_name (field data "orders") = None ->
  field (field data "orders") "edges" = VArr edges ->
  Forall (fun e => nullish_name e = None) edges ->
  getOrders.reshape data
  = Normal (flattened edges (field (field data "orders") "pageInfo")).
Proof.
  intros D O E F.
  assert (G1 : get_prop data "orders" = Normal (field data "orders"))
    by (unfold get_prop; now rewrite D).
  assert (G2 : get_prop (field data "orders") "edges" = Normal (VArr edges))
    by (unfold get_prop; now rewrite O, E).
  assert (G3 : get_prop (field data "orders") "pageInfo"
               = Normal (field (field data "orders") "pageInfo"))
    by (unfold get_prop; now rewrite O).
  unfold getOrders.reshape.
  rewrite G1; cbn [and_next]. rewrite G2; cbn [and_next array_map].
  rewrite !(map_completion_get_prop_total _ _ F); cbn [and_next].
  rewrite G3. reflexivity.
Qed.

(** ** The tools on concrete calls *)

Example variables_both_cursors :
  getOrders.variables_of input_both_cursors
  = VObj [("reverse", VBool false); ("sortKey", VStr "PROCESSED_AT");
          ("last", VNum five); ("before", VStr "c9")].
Proof. reflexivity. Qed.

Example variables_first_page :
  getOrders.variables_of input_first_two
  = VObj [("reverse", VBool false); ("sortKey", VStr "PROCESSED_AT");
          ("first", VNum two)].
Proof. reflexivity. Qed.

Example parse_no_arguments :
  index.get_orders_shape args_none
  = Success (getOrders.mkInput None ten None None false getOrders.PROCESSED_AT).
Proof. reflexivity. Qed.

Example parse_bad_sortKey :
  index.get_orders_shape args_bad_sortKey = Failure "invalid_enum_value".
Proof. reflexivity. Qed.

Example parse_empty_orderId :
  getOrderById.GetOrderByIdInputSchema args_empty_orderId = Failure "too_small".
Proof. reflexivity. Qed.

Example two_orders_flattened :
  completion_of (run (always (Resolved two_orders)) []
                     (getOrders_session example_client input_first_two (mkVars None)))
  = Normal (VObj [("orders", VArr [VObj [("id", VStr "gid://shopify/Order/1")];
                                   VObj [("id", VStr "gid://shopify/Order/2")]]);
                  ("pageInfo", VObj [("hasNextPage", VBool true);
                                     ("hasPreviousPage", VBool false)]);
                  ("cursors", VArr [VStr "c1"; VStr "c2"])]).
Proof.
  unfold getOrders_session.
  rewrite run_after_initialize_getOrders, getOrders_run_execute. reflexivity.
Qed.

Example orders_without_data :
  completion_of (run (always (Resolved (VObj []))) []
                     (getOrders_session example_client input_first_two (mkVars None)))
  = Thrown (Error "Failed to fetch orders: Cannot read properties of undefined (reading 'edges')").
Proof.
  unfold getOrders_session.
  rewrite run_after_initialize_getOrders, getOrders_run_execute. reflexivity.
Qed.

Example orders_network_down :
  run flaky [] (getOrders_session example_client input_first_two (mkVars None))
  = ((Thrown (Error "Failed to fetch orders: ECONNRESET"), mkVars (Some example_client)),
     [mkRequest example_client getOrders.document
                (getOrders.variables_of input_first_two)]).
Proof.
  unfold getOrders_session.
  rewrite run_after_initialize_getOrders, getOrders_run_execute. reflexivity.
Qed.

Example order_is_returned :
  completion_of (run (always (Resolved order_found)) []
                     (getOrderById_session example_client input_order_1 (mkVars None)))
  = Normal (VObj [("id", VStr "gid://shopify/Order/1"); ("name", VStr "#1001")]).
Proof.
  unfold getOrderById_session.
  rewrite run_after_initialize_getOrderById, getOrderById_run_execute. reflexivity.
Qed.

Example order_null_not_found :
  completion_of (run (always (Resolved order_null)) []
                     (getOrderById_session example_client input_order_1 (mkVars None)))
  = Thrown (Error "Failed to fetch order: Order not found with ID: gid://shopify/Order/1").
Proof.
  unfold getOrderById_session.
  rewrite run_after_initialize_getOrderById, getOrderById_run_execute. reflexivity.
Qed.

Example execute_before_initialize :
  run (always (Resolved order_found)) []
      (getOrderById.execute input_order_1 (mkVars None))
  = ((Thrown (Error "Failed to fetch order: Cannot read properties of undefined (reading 'request')"),
      mkVars None), []).
Proof. rewrite getOrderById_run_execute. reflexivity. Qed.

(** ** Pagination variables of get-orders *)

Lemma given_spec o : given o = true <-> exists s, o = Some s /\ s <> "".
Proof.
  unfold given. destruct o as [s |]; simpl.
  - rewrite negb_true_iff, String.eqb_neq. split.
    + intro N. now exists s.
    + intros [s' [E N]]. now inversion E; subst.
  - split; [discriminate | intros [s [E _]]; discriminate].
Qed.

Lemma variables_pagination input :
  pagination_by_truthiness input (getOrders.variables_of input).
Proof.
  destruct input as [q lim af be rev sk].
  unfold pagination_by_truthiness, given, getOrders.variables_of; simpl.
  destruct be as [[| b0 b] |], af as [[| a0 a] |], q as [[| q0 q] |];
    simpl; repeat split; reflexivity.
Qed.

(** C1, as the code does it: the request of a get-orders call carries the
    variables built from the input; when [before] is present and not the
    empty string they hold [last = limit] and [before], and neither [first]
    nor [after]; otherwise (before omitted or empty) they hold
    [first = limit], hold [after] exactly when [after] is present and not
    empty, and neither [last] nor [before].  Never both [first] and [last].
    ([given] is the test the code makes: present and not empty.) *)
Theorem getOrders_pagination_variables :
  forall net c input s log,
    log_of (run net log (getOrders_session c input s)) =
      log ++ [mkRequest c getOrders.document (getOrders.variables_of input)]
    /\ pagination_by_truthiness input (getOrders.variables_of input)
    /\ (given (getOrders.before input) = true
        <-> exists b, getOrders.before input = Some b /\ b <> "")
    /\ (given (getOrders.after input) = true
        <-> exists a, getOrders.after input = Some a /\ a <> "").
Proof.
  intros. split; [| split; [apply variables_pagination | split; apply given_spec]].
  unfold getOrders_session.
  rewrite run_after_initialize_getOrders, getOrders_run_execute.
  reflexivity.
Qed.

(** C1 as stated fails: with [before] present but empty the code pages
    forward, sending [first] and no [last]. *)
Lemma getOrders_empty_before_pages_forward :
  present (getOrders.before input_empty_before) = true /\
  log_of (run (always (Rejected (Error "down"))) []
              (getOrders_session example_client input_empty_before (mkVars None))) =
    [mkRequest example_client getOrders.document
               (getOrders.variables_of input_empty_before)] /\
  contains (getOrders.variables_of input_empty_before) "first" = true /\
  contains (getOrders.variables_of input_empty_before) "last" = false /\
  ~ pagination_by_presence input_empty_before
      (getOrders.variables_of input_empty_before).
Proof.
  split; [reflexivity |]. split.
  - unfold getOrders_session.
    rewrite run_after_initialize_getOrders, getOrders_run_execute. reflexivity.
  - split; [reflexivity |]. split; [reflexivity |].
    intros [[_ [_ [H _]]] _]. discriminate H.
Qed.

(** ** The result of get-orders *)

(** [reshape] succeeds exactly on responses whose [orders.edges] is an array
    of values other than [null] and [undefined], and flattens them. *)
Lemma reshape_normal data v :
  getOrders.reshape data = Normal v ->
  exists edges,
    field (field data "orders") "edges" = VArr edges /\
    v = flattened edges (field (field data "orders") "pageInfo").
Proof.
  unfold getOrders.reshape, and_next.
  destruct (get_prop data "orders") as [o |] eqn:Ho; [| discriminate].
  apply get_prop_normal in Ho. destruct Ho as [_ ->].
  destruct (get_prop (field data "orders") "edges") as [ed |] eqn:He; [| discriminate].
  apply get_prop_normal in He. destruct He as [_ ->].
  destruct (get_prop (field data "orders") "pageInfo") as [pi |] eqn:Hp;
    [| destruct (array_map _ _ _); discriminate].
  apply get_prop_normal in Hp. destruct Hp as [_ ->].
  destruct (field (field data "orders") "edges") as [| | b | n | str | edges | props];
    simpl; try discriminate.
  destruct (map_completion (fun e => get_prop e "node") edges) as [nodes |] eqn:N;
    [| discriminate].
  destruct (map_completion (fun e => get_prop e "cursor") edges) as [cursors |] eqn:C;
    [| discriminate].
  apply map_completion_get_prop in N, C.
  destruct N as [-> _], C as [-> _].
  intro H. inversion H. exists edges. split; reflexivity.
Qed.

(** C2: a get-orders call that returns normally returns
    [{ orders, pageInfo, cursors }]: the client resolved with some [data]
    whose [orders.edges] is an array, [orders] are the [node]s of its edges
    in order, [cursors] their [cursor]s in the same order (so both have the
    length of [edges] and position [i] of each comes from edge [i]), and
    [pageInfo] is [data.orders.pageInfo] itself. *)
Theorem getOrders_returns_flattened_page :
  forall net input s log v,
    completion_of (run net log (getOrders.execute input s)) = Normal v ->
    exists c data edges,
      shopifyClient s = Some c /\
      net log (mkRequest c getOrders.document (getOrders.variables_of input))
        = Resolved data /\
      field (field data "orders") "edges" = VArr edges /\
      v = VObj [("orders", VArr (map (fun edge => field edge "node") edges));
                ("pageInfo", field (field data "orders") "pageInfo");
                ("cursors", VArr (map (fun edge => field edge "cursor") edges))] /\
      length (map (fun edge => field edge "node") edges) = length edges /\
      length (map (fun edge => field edge "cursor") edges) = length edges /\
      (forall i, nth i (map (fun edge => field edge "node") edges) VUndefined
                 = field (nth i edges VUndefined) "node") /\
      (forall i, nth i (map (fun edge => field edge "cursor") edges) VUndefined
                 = field (nth i edges VUndefined) "cursor").
Proof.
  intros net input s log v H.
  rewrite getOrders_run_execute in H. unfold completion_of in H.
  destruct (shopifyClient s) as [c |]; simpl in H; [| discriminate].
  destruct (net log _) as [data | e] eqn:Ans; simpl in H; [| discriminate].
  destruct (getOrders.reshape data) as [v' |] eqn:Re; simpl in H; [| discriminate].
  inversion H; subst v'.
  destruct (reshape_normal _ _ Re) as [edges [E ->]].
  exists c, data, edges. repeat split; try reflexivity; try assumption.
  - apply length_map.
  - apply length_map.
  - intro i. exact (map_nth (fun edge => field edge "node") edges VUndefined i).
  - intro i. exact (map_nth (fun edge => field edge "cursor") edges VUndefined i).
Qed.

Lemma getOrders_returns_flattened_page_witness :
  exists c data edges,
    shopifyClient (mkVars (Some example_client)) = Some c /\
    always (Resolved two_orders) []
      (mkRequest c getOrders.document (getOrders.variables_of input_first_two))
      = Resolved data /\
    field (field data "orders") "edges" = VArr edges /\
    VObj [("orders", VArr [VObj [("id", VStr "gid://shopify/Order/1")];
                           VObj [("id", VStr "gid://shopify/Order/2")]]);
          ("pageInfo", VObj [("hasNextPage", VBool true);
                             ("hasPreviousPage", VBool false)]);
          ("cursors", VArr [VStr "c1"; VStr "c2"])]
      = VObj [("orders", VArr (map (fun edge => field edge "node") edges));
              ("pageInfo", field (field data "orders") "pageInfo");
              ("cursors", VArr (map (fun edge => field edge "cursor") edges))] /\
    length (map (fun edge => field edge "node") edges) = length edges /\
    length (map (fun edge => field edge "cursor") edges) = length edges /\
    (forall i, nth i (map (fun edge => field edge "node") edges) VUndefined
               = field (nth i edges VUndefined) "node") /\
    (forall i, nth i (map (fun edge => field edge "cursor") edges) VUndefined
               = field (nth i edges VUndefined) "cursor").
Proof.
  apply (getOrders_returns_flattened_page
           (always (Resolved two_orders)) input_first_two
           (mkVars (Some example_client)) []).
  rewrite getOrders_run_execute. reflexivity.
Defined.

(** ** Errors *)

(** C3: whatever the [try] block of [execute] throws, be it the rejection of
    the client's promise or an error of a later step, [execute] throws an
    [Error] whose message is the tool's prefix followed by the message of
    that error; a normal completion passes through, the [catch] block makes
    no request of its own and leaves the module variable alone. *)
Theorem execute_rethrows_with_prefix :
  forall net s log,
    (forall input,
        match completion_of (run net log (getOrders.execute_try input s)) with
        | Thrown e =>
            completion_of (run net log (getOrders.execute input s))
            = Thrown (Error ("Failed to fetch orders: " ++ message e))
        | Normal v =>
            completion_of (run net log (getOrders.execute input s)) = Normal v
        end
        /\ log_of (run net log (getOrders.execute input s))
           = log_of (run net log (getOrders.execute_try input s))
        /\ (forall c,
               match net log (mkRequest c getOrders.document
                                        (getOrders.variables_of input)) with
               | Rejected e =>
                   completion_of (run net log (getOrders_session c input s))
                   = Thrown (Error ("Failed to fetch orders: " ++ message e))
               | Resolved _ => True
               end))
    /\
    (forall input,
        match completion_of (run net log (getOrderById.execute_try input s)) with
        | Thrown e =>
            completion_of (run net log (getOrderById.execute input s))
            = Thrown (Error ("Failed to fetch order: " ++ message e))
        | Normal v =>
            completion_of (run net log (getOrderById.execute input s)) = Normal v
        end
        /\ log_of (run net log (getOrderById.execute input s))
           = log_of (run net log (getOrderById.execute_try input s))
        /\ (forall c,
               match net log (mkRequest c getOrderById.document
                                        (getOrderById.variables_of input)) with
               | Rejected e =>
                   completion_of (run net log (getOrderById_session c input s))
                   = Thrown (Error ("Failed to fetch order: " ++ message e))
               | Resolved _ => True
               end)).
Proof.
  intros net s log. split; intro input.
  - unfold getOrders.execute. rewrite run_try_catch.
    split; [| split].
    + destruct (run net log (getOrders.execute_try input s)) as [[[v | e] s'] log'];
        reflexivity.
    + destruct (run net log (getOrders.execute_try input s)) as [[[v | e] s'] log'];
        reflexivity.
    + intro c. unfold getOrders_session.
      rewrite run_after_initialize_getOrders, getOrders_run_execute. simpl.
      destruct (net log _); [exact I | reflexivity].
  - unfold getOrderById.execute. rewrite run_try_catch.
    split; [| split].
    + destruct (run net log (getOrderById.execute_try input s))
        as [[[v | e] s'] log']; reflexivity.
    + destruct (run net log (getOrderById.execute_try input s))
        as [[[v | e] s'] log']; reflexivity.
    + intro c. unfold getOrderById_session.
      rewrite run_after_initialize_getOrderById, getOrderById_run_execute. simpl.
      destruct (net log _); [exact I | reflexivity].
Qed.

(** ** The result of get-order-by-id *)

Lemma unwrap_cases input data :
  getOrderById.unwrap input data =
  match get_prop data "order" with
  | Thrown e => Thrown e
  | Normal order =>
      if truthy order then Normal order
      else Thrown (Error ("Order not found with ID: " ++ getOrderById.orderId input))
  end.
Proof.
  unfold getOrderById.unwrap, and_next.
  destruct (get_prop data "order") as [order |] eqn:G; [| reflexivity].
  destruct (truthy order); reflexivity.
Qed.

(** The completion of a get-order-by-id call, from what the client resolves
    with: an error of reading [data.order] is rethrown with the prefix, a
    falsy [data.order] is reported as not found, a truthy one is returned. *)
Lemma getOrderById_session_completion net c input s log data :
  net log (mkRequest c getOrderById.document (getOrderById.variables_of input))
  = Resolved data ->
  completion_of (run net log (getOrderById_session c input s))
  = match get_prop data "order" with
    | Thrown e => Thrown (Error ("Failed to fetch order: " ++ message e))
    | Normal order =>
        if truthy order then Normal order
        else Thrown (Error ("Failed to fetch order: " ++
                            "Order not found with ID: " ++
                            getOrderById.orderId input))
    end.
Proof.
  intro A. unfold getOrderById_session.
  rewrite run_after_initialize_getOrderById, getOrderById_run_execute.
  unfold completion_of; simpl. rewrite A; simpl. rewrite unwrap_cases.
  destruct (get_prop data "order") as [order |]; simpl; [| reflexivity].
  destruct (truthy order); reflexivity.
Qed.

(** C4: when the client resolves with a response object, an [order] that is
    [null] or absent makes the call throw the [Error]
    ["Failed to fetch order: Order not found with ID: "] followed by the
    given order id, and an [order] that is an object (what the selection
    [order(id: $id) { ... }] yields when it is not [null]) is returned as it
    is.  Whatever the client answers, the call never returns [null] or
    [undefined]. *)
Theorem getOrderById_returns_order_or_not_found :
  forall net c input s log,
    (forall fields,
        net log (mkRequest c getOrderById.document
                           (getOrderById.variables_of input))
        = Resolved (VObj fields) ->
        (lookup "order" fields = VNull \/ has_key "order" fields = false ->
         completion_of (run net log (getOrderById_session c input s))
         = Thrown (Error ("Failed to fetch order: " ++
                          "Order not found with ID: " ++
                          getOrderById.orderId input)))
        /\ (forall order,
               lookup "order" fields = VObj order ->
               completion_of (run net log (getOrderById_session c input s))
               = Normal (VObj order)))
    /\ completion_of (run net log (getOrderById_session c input s)) <> Normal VNull
    /\ completion_of (run net log (getOrderById_session c input s))
       <> Normal VUndefined.
Proof.
  intros net c input s log. split.
  - intros fields A.
    rewrite (getOrderById_session_completion net c input s log _ A).
    unfold get_prop; simpl. split.
    + intros [N | M].
      * rewrite N. reflexivity.
      * rewrite (lookup_missing _ _ M). reflexivity.
    + intros order O. rewrite O. reflexivity.
  - unfold getOrderById_session.
    rewrite run_after_initialize_getOrderById, getOrderById_run_execute.
    unfold completion_of; simpl.
    destruct (net log _) as [data | e]; simpl; [| split; discriminate].
    rewrite unwrap_cases.
    destruct (get_prop data "order") as [order |]; simpl; [| split; discriminate].
    destruct (truthy order) eqn:T; simpl; [| split; discriminate].
    split; intro H; inversion H; subst order; discriminate T.
Qed.

Lemma getOrderById_returns_order_or_not_found_witness :
  completion_of (run (always (Resolved order_null)) []
                     (getOrderById_session example_client input_order_1
                                           (mkVars None)))
  = Thrown (Error ("Failed to fetch order: " ++ "Order not found with ID: " ++
                   getOrderById.orderId input_order_1))
  /\ completion_of (run (always (Resolved order_found)) []
                        (getOrderById_session example_client input_order_1
                                              (mkVars None)))
     = Normal (VObj [("id", VStr "gid://shopify/Order/1"); ("name", VStr "#1001")]).
Proof.
  split.
  - apply (proj1 (proj1 (getOrderById_returns_order_or_not_found
                           (always (Resolved order_null)) example_client
                           input_order_1 (mkVars None) [])
                        [("order", VNull)] eq_refl)).
    left. reflexivity.
  - apply (proj2 (proj1 (getOrderById_returns_order_or_not_found
                           (always (Resolved order_found)) example_client
                           input_order_1 (mkVars None) [])
                        [("order", VObj [("id", VStr "gid://shopify/Order/1");
                                         ("name", VStr "#1001")])] eq_refl)).
    reflexivity.
Defined.

(** ** The documents *)

(** C5: whatever the input, the document a tool hands to the client is its
    one constant ([getOrders.document], [getOrderById.document]), so two
    inputs give the same document and differ in the variables only; each
    document is a [query] operation and the word "mutation" occurs in
    neither. *)
Theorem documents_are_constant_queries :
  (forall net c s log input input',
      map req_document (log_of (run net [] (getOrders_session c input s)))
      = [getOrders.document]
      /\ map req_document (log_of (run net log (getOrders_session c input s)))
         = map req_document (log_of (run net log (getOrders_session c input' s))))
  /\ (forall net c s log input input',
         map req_document (log_of (run net [] (getOrderById_session c input s)))
         = [getOrderById.document]
         /\ map req_document (log_of (run net log (getOrderById_session c input s)))
            = map req_document
                  (log_of (run net log (getOrderById_session c input' s))))
  /\ operation_keyword getOrders.document = "query"
  /\ operation_keyword getOrderById.document = "query"
  /\ occurs "mutation" getOrders.document = false
  /\ occurs "mutation" getOrderById.document = false.
Proof.
  split; [| split].
  - intros. unfold getOrders_session.
    rewrite !run_after_initialize_getOrders, !getOrders_run_execute.
    unfold log_of; simpl. rewrite !map_app. split; reflexivity.
  - intros. unfold getOrderById_session.
    rewrite !run_after_initialize_getOrderById, !getOrderById_run_execute.
    unfold log_of; simpl. rewrite !map_app. split; reflexivity.
  - repeat split; vm_compute; reflexivity.
Qed.

(** ** One request per call *)

(** C6: a call of either tool extends the log of requests by at most one
    request, by exactly one whenever it returns a result, and, once
    [initialize] has installed a client, by exactly one for every input and
    every answer of the network: the request with the tool's document and
    the variables of the input. *)
Theorem execute_makes_one_request :
  forall net s log,
    (forall input,
        exists extra,
          log_of (run net log (getOrders.execute input s)) = log ++ extra
          /\ match completion_of (run net log (getOrders.execute input s)) with
             | Normal _ => length extra = 1
             | Thrown _ => length extra <= 1
             end)
    /\ (forall c input,
           log_of (run net log (getOrders_session c input s))
           = log ++ [mkRequest c getOrders.document (getOrders.variables_of input)])
    /\ (forall input,
           exists extra,
             log_of (run net log (getOrderById.execute input s)) = log ++ extra
             /\ match completion_of (run net log (getOrderById.execute input s)) with
                | Normal _ => length extra = 1
                | Thrown _ => length extra <= 1
                end)
    /\ (forall c input,
           log_of (run net log (getOrderById_session c input s))
           = log ++ [mkRequest c getOrderById.document
                               (getOrderById.variables_of input)]).
Proof.
  intros net s log. repeat split.
  - intro input. rewrite getOrders_run_execute.
    destruct (shopifyClient s) as [c |]; simpl.
    + eexists; split; [reflexivity |].
      destruct (rethrown _ _); simpl; lia.
    + exists []. rewrite app_nil_r. split; [reflexivity | simpl; lia].
  - intros c input. unfold getOrders_session.
    rewrite run_after_initialize_getOrders, getOrders_run_execute. reflexivity.
  - intro input. rewrite getOrderById_run_execute.
    destruct (shopifyClient s) as [c |]; simpl.
    + eexists; split; [reflexivity |].
      destruct (rethrown _ _); simpl; lia.
    + exists []. rewrite app_nil_r. split; [reflexivity | simpl; lia].
  - intros c input. unfold getOrderById_session.
    rewrite run_after_initialize_getOrderById, getOrderById_run_execute. reflexivity.
Qed.

(** ** Statelessness *)

(** C8: a call of either tool leaves the module variable as it found it (so
    the client installed by [initialize] stays installed), and two calls with
    the same input whose requests get the same answer complete alike,
    whatever the clients, the earlier requests and the rest of the network
    are. *)
Theorem execute_is_stateless_and_deterministic :
  forall net1 net2 c1 c2 s1 s2 log1 log2 orders_input order_input,
    net1 log1 (mkRequest c1 getOrders.document
                         (getOrders.variables_of orders_input))
    = net2 log2 (mkRequest c2 getOrders.document
                           (getOrders.variables_of orders_input)) ->
    net1 log1 (mkRequest c1 getOrderById.document
                         (getOrderById.variables_of order_input))
    = net2 log2 (mkRequest c2 getOrderById.document
                           (getOrderById.variables_of order_input)) ->
    vars_of (run net1 log1 (getOrders.execute orders_input s1)) = s1
    /\ vars_of (run net1 log1 (getOrderById.execute order_input s1)) = s1
    /\ vars_of (run net1 log1 (getOrders_session c1 orders_input s1))
       = mkVars (Some c1)
    /\ vars_of (run net1 log1 (getOrderById_session c1 order_input s1))
       = mkVars (Some c1)
    /\ completion_of (run net1 log1 (getOrders_session c1 orders_input s1))
       = completion_of (run net2 log2 (getOrders_session c2 orders_input s2))
    /\ completion_of (run net1 log1 (getOrderById_session c1 order_input s1))
       = completion_of (run net2 log2 (getOrderById_session c2 order_input s2)).
Proof.
  intros net1 net2 c1 c2 s1 s2 log1 log2 orders_input order_input H1 H2.
  unfold getOrders_session, getOrderById_session.
  rewrite !run_after_initialize_getOrders, ?run_after_initialize_getOrderById,
          !getOrders_run_execute, !getOrderById_run_execute.
  unfold vars_of, completion_of; simpl.
  rewrite H1, H2.
  repeat split; destruct (shopifyClient s1); reflexivity.
Qed.

Lemma execute_is_stateless_and_deterministic_witness :
  vars_of (run (always (Resolved two_orders)) []
               (getOrders.execute input_first_two (mkVars None))) = mkVars None
  /\ vars_of (run (always (Resolved two_orders)) []
                  (getOrderById.execute input_order_1 (mkVars None))) = mkVars None
  /\ vars_of (run (always (Resolved two_orders)) []
                  (getOrders_session example_client input_first_two (mkVars None)))
     = mkVars (Some example_client)
  /\ vars_of (run (always (Resolved two_orders)) []
                  (getOrderById_session example_client input_order_1 (mkVars None)))
     = mkVars (Some example_client)
  /\ completion_of (run (always (Resolved two_orders)) []
                        (getOrders_session example_client input_first_two
                                           (mkVars None)))
     = completion_of (run flaky
                          [mkRequest example_client getOrderById.document VNull]
                          (getOrders_session other_client input_first_two
                                             (mkVars (Some example_client))))
  /\ completion_of (run (always (Resolved two_orders)) []
                        (getOrderById_session example_client input_order_1
                                              (mkVars None)))
     = completion_of (run flaky
                          [mkRequest example_client getOrderById.document VNull]
                          (getOrderById_session other_client input_order_1
                                                (mkVars (Some example_client)))).
Proof.
  apply (execute_is_stateless_and_deterministic
           (always (Resolved two_orders)) flaky example_client other_client
           (mkVars None) (mkVars (Some example_client))
           [] [mkRequest example_client getOrderById.document VNull]
           input_first_two input_order_1); reflexivity.
Defined.

(** ** The empty search query *)

(** C10: with [query] the empty string the variables are those of the call
    with [query] omitted and have no [query] property; the two calls are the
    same program, so on the same network they make the same request and
    complete alike. *)
Theorem empty_query_is_omitted_query :
  forall input,
    getOrders.variables_of (with_query (Some "") input)
    = getOrders.variables_of (with_query None input)
    /\ contains (getOrders.variables_of (with_query (Some "") input)) "query" = false
    /\ contains (getOrders.variables_of (with_query None input)) "query" = false
    /\ (forall s, getOrders.execute (with_query (Some "") input) s
                  = getOrders.execute (with_query None input) s)
    /\ (forall net s log,
           run net log (getOrders.execute (with_query (Some "") input) s)
           = run net log (getOrders.execute (with_query None input) s)).
Proof.
  intro input.
  assert (V : getOrders.variables_of (with_query (Some "") input)
              = getOrders.variables_of (with_query None input)) by reflexivity.
  assert (P : forall s, getOrders.execute (with_query (Some "") input) s
                        = getOrders.execute (with_query None input) s).
  { intro s. unfold getOrders.execute, getOrders.execute_try. rewrite V.
    reflexivity. }
  split; [exact V |]. split; [| split; [| split]].
  - destruct input as [q lim af be rev sk].
    unfold getOrders.variables_of, with_query; simpl.
    destruct be as [[| b0 b] |], af as [[| a0 a] |]; reflexivity.
  - destruct input as [q lim af be rev sk].
    unfold getOrders.variables_of, with_query; simpl.
    destruct be as [[| b0 b] |], af as [[| a0 a] |]; reflexivity.
  - exact P.
  - intros net s log. rewrite P. reflexivity.
Qed.

(** ** Validation before execution *)

Lemma find_member_outside k :
  ~ In k sortKey_names -> find_member k getOrders.SortKey_members = None.
Proof.
  intro N. unfold getOrders.SortKey_members; simpl.
  repeat match goal with
         | |- context [String.eqb k ?n] =>
             destruct (String.eqb_spec k n) as [-> | _];
             [exfalso; apply N; simpl; tauto |]
         end.
  reflexivity.
Qed.

Lemma sortKey_rejected v :
  v <> VUndefined ->
  (forall k, In k sortKey_names -> v <> VStr k) ->
  exists issue,
    z_optional_default (VStr "PROCESSED_AT") getOrders.PROCESSED_AT
                       (z_enum getOrders.SortKey_members) v = Failure issue.
Proof.
  intros U N. unfold z_optional_default, z_default, z_optional, z_enum.
  destruct v as [| | b | n | k | l | props]; try (eexists; reflexivity).
  - now contradiction U.
  - rewrite find_member_outside; [eexists; reflexivity |].
    intro I. exact (N k I eq_refl).
Qed.

Lemma server_tool_failure {A} name (shape : Schema A) cb args issue net s log :
  shape args = Failure issue ->
  run net log (index.server_tool name shape cb args s) =
  ((Thrown (mkError "McpError"
              ("MCP error -32602: Invalid arguments for tool " ++ name ++ ": "
               ++ issue)), s), log).
Proof. intro F. unfold index.server_tool. rewrite F. reflexivity. Qed.

(** C7: the shape of get-order-by-id refuses an empty [orderId], the shape of
    get-orders refuses a [sortKey] that is none of the seven listed strings,
    and a call whose arguments the registered shape refuses ends with an
    error without running the callback (whatever the callback is, so
    [execute] does not run), without a request and without touching the
    module variable. *)
Theorem invalid_arguments_stop_before_execute :
  (forall args,
      field args "orderId" = VStr "" ->
      exists issue, getOrderById.GetOrderByIdInputSchema args = Failure issue)
  /\ (forall args v,
         field args "sortKey" = v ->
         v <> VUndefined ->
         (forall k, In k sortKey_names -> v <> VStr k) ->
         exists issue, index.get_orders_shape args = Failure issue)
  /\ (forall net s log args issue,
         index.get_orders_shape args = Failure issue ->
         (forall cb, exists e,
               run net log (index.server_tool "get-orders" index.get_orders_shape
                                              cb args s)
               = ((Thrown e, s), log))
         /\ exists e, run net log (index.get_orders_tool args s)
                      = ((Thrown e, s), log))
  /\ (forall net s log args issue,
         getOrderById.GetOrderByIdInputSchema args = Failure issue ->
         (forall cb, exists e,
               run net log (index.server_tool "get-order-by-id"
                              getOrderById.GetOrderByIdInputSchema cb args s)
               = ((Thrown e, s), log))
         /\ exists e, run net log (index.get_order_by_id_tool args s)
                      = ((Thrown e, s), log)).
Proof.
  split; [| split; [| split]].
  - intros args H. destruct args; try discriminate H.
    unfold getOrderById.GetOrderByIdInputSchema; simpl in *.
    rewrite H. eexists; reflexivity.
  - intros args v H U N.
    destruct args; simpl in H; try (now subst v; contradiction U).
    unfold index.get_orders_shape; simpl.
    destruct (z_optional z_string _); simpl; [| eexists; reflexivity].
    destruct (z_default _ z_number _); simpl; [| eexists; reflexivity].
    destruct (z_optional z_string _); simpl; [| eexists; reflexivity].
    destruct (z_optional z_string _); simpl; [| eexists; reflexivity].
    destruct (z_optional_default _ _ z_boolean _); simpl; [| eexists; reflexivity].
    rewrite H. destruct (sortKey_rejected v U N) as [issue ->].
    eexists; reflexivity.
  - intros net s log args issue F. split.
    + intro cb. eexists. apply server_tool_failure. exact F.
    + eexists. apply server_tool_failure. exact F.
  - intros net s log args issue F. split.
    + intro cb. eexists. apply server_tool_failure. exact F.
    + eexists. apply server_tool_failure. exact F.
Qed.

Lemma invalid_arguments_stop_before_execute_witness :
  (exists issue, getOrderById.GetOrderByIdInputSchema args_empty_orderId
                 = Failure issue)
  /\ (exists issue, index.get_orders_shape args_bad_sortKey = Failure issue)
  /\ (exists e, run (always (Resolved two_orders)) []
                    (index.get_orders_tool args_bad_sortKey
                                           (mkVars (Some example_client)))
                = ((Thrown e, mkVars (Some example_client)), []))
  /\ (exists e, run (always (Resolved order_found)) []
                    (index.get_order_by_id_tool args_empty_orderId
                                                (mkVars (Some example_client)))
                = ((Thrown e, mkVars (Some example_client)), [])).
Proof.
  split; [| split; [| split]].
  - apply (proj1 invalid_arguments_stop_before_execute args_empty_orderId).
    reflexivity.
  - apply (proj1 (proj2 invalid_arguments_stop_before_execute)
                 args_bad_sortKey (VStr "NAME")).
    + reflexivity.
    + discriminate.
    + intros k I E. inversion E; subst k. simpl in I.
      repeat (destruct I as [I | I]; [discriminate I |]). exact I.
  - apply (proj1 (proj2 (proj2 invalid_arguments_stop_before_execute))
                 (always (Resolved two_orders)) (mkVars (Some example_client)) []
                 args_bad_sortKey "invalid_enum_value").
    reflexivity.
  - apply (proj2 (proj2 (proj2 invalid_arguments_stop_before_execute))
                 (always (Resolved order_found)) (mkVars (Some example_client)) []
                 args_empty_orderId
                 "too_small").
    reflexivity.
Defined.

(** ** Defaults of get-orders *)

(** A successful parse, field by field. *)
Lemma get_orders_shape_success args input :
  index.get_orders_shape args = Success input ->
  exists props,
    args = VObj props /\
    z_optional z_string (lookup "query" props) = Success (getOrders.query input) /\
    z_default (VNum ten) z_number (lookup "limit" props)
      = Success (getOrders.limit input) /\
    z_optional z_string (lookup "after" props) = Success (getOrders.after input) /\
    z_optional z_string (lookup "before" props) = Success (getOrders.before input) /\
    z_optional_default (VBool false) false z_boolean (lookup "reverse" props)
      = Success (getOrders.reverse input) /\
    z_optional_default (VStr "PROCESSED_AT") getOrders.PROCESSED_AT
                       (z_enum getOrders.SortKey_members) (lookup "sortKey" props)
      = Success (getOrders.sortKey input).
Proof.
  destruct args as [| | b | n | str | l | props]; try discriminate.
  cbv beta iota delta [index.get_orders_shape z_object_props and_then].
  destruct (z_optional z_string (lookup "query" props)) as [q |] eqn:Eq;
    [| discriminate].
  destruct (z_default _ z_number _) as [lim |] eqn:El; [| discriminate].
  destruct (z_optional z_string (lookup "after" props)) as [af |] eqn:Ea;
    [| discriminate].
  destruct (z_optional z_string (lookup "before" props)) as [be |] eqn:Eb;
    [| discriminate].
  destruct (z_optional_default _ _ z_boolean _) as [rev |] eqn:Er; [| discriminate].
  destruct (z_optional_default _ _ (z_enum _) _) as [sk |] eqn:Es; [| discriminate].
  intro H. inversion H; subst input.
  exists props. repeat split; assumption.
Qed.

Lemma run_get_orders_call net c args input s log :
  index.get_orders_shape args = Success input ->
  log_of (run net log (get_orders_call c args s)) =
  log ++ [mkRequest c getOrders.document (getOrders.variables_of input)].
Proof.
  intro P. unfold get_orders_call.
  rewrite run_after_initialize_getOrders.
  unfold index.get_orders_tool, index.server_tool. rewrite P.
  rewrite run_try_catch.
  unfold index.get_orders_cb. rewrite run_bind, getOrders_run_execute; simpl.
  destruct (rethrown _ _); reflexivity.
Qed.

Lemma variables_reverse_sortKey input :
  field (getOrders.variables_of input) "reverse" = VBool (getOrders.reverse input) /\
  field (getOrders.variables_of input) "sortKey"
    = VStr (getOrders.SortKey_string (getOrders.sortKey input)) /\
  contains (getOrders.variables_of input) "reverse" = true /\
  contains (getOrders.variables_of input) "sortKey" = true.
Proof.
  destruct input as [q lim af be rev sk].
  unfold getOrders.variables_of; simpl.
  destruct be as [[| b0 b] |], af as [[| a0 a] |], q as [[| q0 q] |];
    simpl; repeat split; reflexivity.
Qed.

(** C9, as the code does it: in a get-orders call whose arguments parse, an
    omitted [limit] is 10 and that 10 is what is sent, as [last] when
    [before] is present and not empty and as [first] otherwise; an omitted
    [reverse] is [false]; an omitted [sortKey] is ["PROCESSED_AT"]; and the
    variables of the request made always hold [reverse] and [sortKey], with
    the values of the parsed input. *)
Theorem get_orders_defaults :
  forall net c s log args input,
    index.get_orders_shape args = Success input ->
    log_of (run net log (get_orders_call c args s))
    = log ++ [mkRequest c getOrders.document (getOrders.variables_of input)]
    /\ (contains args "limit" = false ->
        getOrders.limit input = ten /\
        if given (getOrders.before input)
        then field (getOrders.variables_of input) "last" = VNum ten
        else field (getOrders.variables_of input) "first" = VNum ten)
    /\ (contains args "reverse" = false ->
        getOrders.reverse input = false /\
        field (getOrders.variables_of input) "reverse" = VBool false)
    /\ (contains args "sortKey" = false ->
        getOrders.sortKey input = getOrders.PROCESSED_AT /\
        field (getOrders.variables_of input) "sortKey" = VStr "PROCESSED_AT")
    /\ contains (getOrders.variables_of input) "reverse" = true
    /\ contains (getOrders.variables_of input) "sortKey" = true
    /\ field (getOrders.variables_of input) "reverse"
       = VBool (getOrders.reverse input)
    /\ field (getOrders.variables_of input) "sortKey"
       = VStr (getOrders.SortKey_string (getOrders.sortKey input)).
Proof.
  intros net c s log args input P.
  split; [now apply run_get_orders_call |].
  destruct (variables_reverse_sortKey input) as [VR [VS [CR CS]]].
  destruct (get_orders_shape_success _ _ P)
    as [props [-> [_ [L [_ [_ [Rv Sk]]]]]]].
  unfold contains.
  split.
  { intro O. rewrite (lookup_missing _ _ O) in L.
    assert (E : ten = getOrders.limit input) by (inversion L; reflexivity).
    split; [symmetry; exact E |].
    pose proof (variables_pagination input) as [Pg _].
    rewrite <- E in Pg.
    destruct (given (getOrders.before input)); apply Pg. }
  split.
  { intro O. rewrite (lookup_missing _ _ O) in Rv.
    assert (E : false = getOrders.reverse input) by (inversion Rv; reflexivity).
    rewrite VR, <- E. split; reflexivity. }
  split.
  { intro O. rewrite (lookup_missing _ _ O) in Sk.
    assert (E : getOrders.PROCESSED_AT = getOrders.sortKey input)
      by (inversion Sk; reflexivity).
    rewrite VS, <- E. split; reflexivity. }
  repeat split; assumption.
Qed.

Lemma get_orders_defaults_witness :
  index.get_orders_shape args_before = Success input_before
  /\ log_of (run (always (Resolved two_orders)) []
                 (get_orders_call example_client args_before (mkVars None)))
     = [] ++ [mkRequest example_client getOrders.document
                        (getOrders.variables_of input_before)]
  /\ (contains args_before "limit" = false ->
      getOrders.limit input_before = ten /\
      if given (getOrders.before input_before)
      then field (getOrders.variables_of input_before) "last" = VNum ten
      else field (getOrders.variables_of input_before) "first" = VNum ten)
  /\ (contains args_before "reverse" = false ->
      getOrders.reverse input_before = false /\
      field (getOrders.variables_of input_before) "reverse" = VBool false)
  /\ (contains args_before "sortKey" = false ->
      getOrders.sortKey input_before = getOrders.PROCESSED_AT /\
      field (getOrders.variables_of input_before) "sortKey" = VStr "PROCESSED_AT")
  /\ contains (getOrders.variables_of input_before) "reverse" = true
  /\ contains (getOrders.variables_of input_before) "sortKey" = true
  /\ field (getOrders.variables_of input_before) "reverse"
     = VBool (getOrders.reverse input_before)
  /\ field (getOrders.variables_of input_before) "sortKey"
     = VStr (getOrders.SortKey_string (getOrders.sortKey input_before)).
Proof.
  split; [reflexivity |].
  apply (get_orders_defaults (always (Resolved two_orders)) example_client
                             (mkVars None) [] args_before input_before).
  reflexivity.
Defined.

(** C9 as stated fails: with [limit] omitted and [before] given as the empty
    string, the default 10 is sent as [first], and no [last] is sent. *)
Lemma get_orders_default_limit_sent_as_first :
  index.get_orders_shape args_empty_before = Success input_empty_before
  /\ contains args_empty_before "limit" = false
  /\ contains args_empty_before "before" = true
  /\ present (getOrders.before input_empty_before) = true
  /\ log_of (run (always (Resolved two_orders)) []
                 (get_orders_call example_client args_empty_before (mkVars None)))
     = [mkRequest example_client getOrders.document
                  (getOrders.variables_of input_empty_before)]
  /\ field (getOrders.variables_of input_empty_before) "first" = VNum ten
  /\ contains (getOrders.variables_of input_empty_before) "last" = false
  /\ ~ default_limit_by_presence input_empty_before
         (getOrders.variables_of input_empty_before).
Proof.
  repeat (split; [reflexivity |]).
  unfold default_limit_by_presence; simpl. discriminate.
Qed.

(** * Further properties of the code *)

(** ** The variables of get-orders *)

Lemma getOrders_session_log net c input s log :
  log_of (run net log (getOrders_session c input s))
  = log ++ [mkRequest c getOrders.document (getOrders.variables_of input)].
Proof.
  unfold getOrders_session.
  rewrite run_after_initialize_getOrders, getOrders_run_execute. reflexivity.
Qed.

Lemma getOrderById_session_log net c input s log :
  log_of (run net log (getOrderById_session c input s))
  = log ++ [mkRequest c getOrderById.document (getOrderById.variables_of input)].
Proof.
  unfold getOrderById_session.
  rewrite run_after_initialize_getOrderById, getOrderById_run_execute. reflexivity.
Qed.

(** The variables, case by case on the three optional strings. *)
Ltac split_input input :=
  let q := fresh "q" in
  let lim := fresh "lim" in
  let af := fresh "af" in
  let be := fresh "be" in
  let rev := fresh "rev" in
  let sk := fresh "sk" in
  destruct input as [q lim af be rev sk];
  destruct be as [[| ? ?] |], af as [[| ? ?] |], q as [[| ? ?] |].

(** X1: the request of a get-orders call carries a [query] variable exactly
    when the input's [query] is present and not empty, and then it is that
    string unchanged. *)
Theorem getOrders_query_variable :
  forall net c input s log q,
    getOrders.query input = Some q ->
    q <> "" ->
    log_of (run net log (getOrders_session c input s))
    = log ++ [mkRequest c getOrders.document (getOrders.variables_of input)]
    /\ contains (getOrders.variables_of input) "query" = true
    /\ field (getOrders.variables_of input) "query" = VStr q
    /\ (forall other,
           contains (getOrders.variables_of other) "query"
           = given (getOrders.query other)).
Proof.
  intros net c input s log q Q N.
  split; [apply getOrders_session_log |].
  assert (G : forall other,
             contains (getOrders.variables_of other) "query"
             = given (getOrders.query other)).
  { intro other. split_input other; reflexivity. }
  split; [| split; [| exact G]].
  - rewrite G, Q. apply given_spec. now exists q.
  - destruct input as [q' lim af be rev sk]. simpl in Q. subst q'.
    destruct q as [| q0 q]; [now contradiction N |].
    destruct be as [[| ? ?] |], af as [[| ? ?] |]; reflexivity.
Qed.

Lemma getOrders_query_variable_witness :
  log_of (run (always (Resolved two_orders)) []
              (getOrders_session example_client input_open_orders (mkVars None)))
  = [] ++ [mkRequest example_client getOrders.document
                     (getOrders.variables_of input_open_orders)]
  /\ contains (getOrders.variables_of input_open_orders) "query" = true
  /\ field (getOrders.variables_of input_open_orders) "query" = VStr "status:open"
  /\ (forall other,
         contains (getOrders.variables_of other) "query"
         = given (getOrders.query other)).
Proof.
  apply (getOrders_query_variable (always (Resolved two_orders)) example_client
                                  input_open_orders (mkVars None) [] "status:open").
  - reflexivity.
  - discriminate.
Defined.

Lemma variables_keys input :
  NoDup (keys (getOrders.variables_of input))
  /\ incl (keys (getOrders.variables_of input)) declared_variables.
Proof.
  split_input input; cbn.
  all: split; [repeat constructor; simpl; intuition discriminate |].
  all: intros k I; simpl in I |- *; intuition.
Qed.

(** X2: whatever the input, the variables object of get-orders has between
    three and five properties, no name twice, every name one of the seven the
    document declares, and no property whose value is [undefined] or
    [null]. *)
Theorem getOrders_variables_well_formed :
  forall input,
    NoDup (keys (getOrders.variables_of input))
    /\ incl (keys (getOrders.variables_of input)) declared_variables
    /\ Forall (fun v => defined v = true)
              (property_values (getOrders.variables_of input))
    /\ 3 <= length (keys (getOrders.variables_of input)) <= 5.
Proof.
  intro input.
  destruct (variables_keys input) as [N I].
  split; [exact N |]. split; [exact I |].
  split_input input; cbn; (split; [repeat constructor | lia]).
Qed.

(** X3: every variable a call sends is declared by its document and bound to
    the argument of the same name: for get-orders each property name [k] of
    the variables occurs as ["$k: "] in the declarations and as ["k: $k"] in
    the arguments of [orders]; for get-order-by-id the variables are exactly
    [{ id }], declared as ["$id: ID!"] and used as ["id: $id"]. *)
Theorem variables_are_declared :
  (forall input,
      Forall (fun k =>
                occurs ("$" ++ k ++ ": ") getOrders.document = true /\
                occurs (k ++ ": $" ++ k) getOrders.document = true)
             (keys (getOrders.variables_of input)))
  /\ (forall input,
         keys (getOrderById.variables_of input) = ["id"]
         /\ field (getOrderById.variables_of input) "id"
            = VStr (getOrderById.orderId input))
  /\ occurs "$id: ID!" getOrderById.document = true
  /\ occurs "id: $id" getOrderById.document = true.
Proof.
  assert (D : Forall (fun k =>
                occurs ("$" ++ k ++ ": ") getOrders.document = true /\
                occurs (k ++ ": $" ++ k) getOrders.document = true)
                     declared_variables).
  { repeat constructor; vm_compute; reflexivity. }
  split; [| split; [| split]].
  - intro input. rewrite Forall_forall in D |- *.
    intros k I. apply D.
    destruct (variables_keys input) as [_ S].
    apply S, I.
  - intro input. split; reflexivity.
  - vm_compute; reflexivity.
  - vm_compute; reflexivity.
Qed.

(** ** When get-orders returns *)

Lemma defined_iff v : defined v = true <-> nullish_name v = None.
Proof.
  unfold defined. destruct (nullish_name v); split; congruence.
Qed.

Lemma reshape_normal_inv data v :
  getOrders.reshape data = Normal v ->
  exists edges,
    defined data = true /\
    defined (field data "orders") = true /\
    field (field data "orders") "edges" = VArr edges /\
    Forall (fun e => defined e = true) edges.
Proof.
  unfold getOrders.reshape, and_next.
  destruct (get_prop data "orders") as [o |] eqn:Ho; [| discriminate].
  apply get_prop_normal in Ho. destruct Ho as [D ->].
  destruct (get_prop (field data "orders") "edges") as [ed |] eqn:He; [| discriminate].
  apply get_prop_normal in He. destruct He as [O ->].
  destruct (field (field data "orders") "edges") as [| | b | n | str | edges | props];
    simpl; try discriminate.
  destruct (map_completion (fun e => get_prop e "node") edges) as [nodes |] eqn:N;
    [| discriminate].
  apply map_completion_get_prop in N. destruct N as [_ F].
  intros _. exists edges. repeat split.
  - now apply defined_iff.
  - now apply defined_iff.
  - eapply Forall_impl; [| exact F]. intros e H. now apply defined_iff.
Qed.

(** X4: a get-orders call returns exactly when the client resolves with a
    response that is neither [null] nor [undefined], whose [orders] is
    neither, and whose [orders.edges] is an array without a [null] or
    [undefined] entry; it then returns the flattened page (an absent
    [pageInfo], [node] or [cursor] comes out as [undefined]).  In every other
    case, a single [null] edge included, it throws "Failed to fetch orders: "
    with a message and returns no part of the page. *)
Theorem getOrders_returns_iff :
  forall net c input s log,
    ((exists v, completion_of (run net log (getOrders_session c input s)) = Normal v)
     <->
     (exists data edges,
         net log (mkRequest c getOrders.document (getOrders.variables_of input))
         = Resolved data /\
         defined data = true /\
         defined (field data "orders") = true /\
         field (field data "orders") "edges" = VArr edges /\
         Forall (fun e => defined e = true) edges))
    /\ (forall data edges,
           net log (mkRequest c getOrders.document (getOrders.variables_of input))
           = Resolved data ->
           defined data = true ->
           defined (field data "orders") = true ->
           field (field data "orders") "edges" = VArr edges ->
           Forall (fun e => defined e = true) edges ->
           completion_of (run net log (getOrders_session c input s))
           = Normal (flattened edges (field (field data "orders") "pageInfo")))
    /\ ((exists v, completion_of (run net log (getOrders_session c input s)) = Normal v)
        \/ (exists m, completion_of (run net log (getOrders_session c input s))
                      = Thrown (Error ("Failed to fetch orders: " ++ m)))).
Proof.
  intros net c input s log. unfold getOrders_session.
  rewrite run_after_initialize_getOrders, getOrders_run_execute.
  unfold completion_of; simpl.
  assert (Fl : forall data edges,
             defined data = true ->
             defined (field data "orders") = true ->
             field (field data "orders") "edges" = VArr edges ->
             Forall (fun e => defined e = true) edges ->
             getOrders.reshape data
             = Normal (flattened edges (field (field data "orders") "pageInfo"))).
  { intros data edges D O E F. apply reshape_flattens; try assumption.
    - now apply defined_iff.
    - now apply defined_iff.
    - eapply Forall_impl; [| exact F]. intros e H. now apply defined_iff. }
  split; [split |]; [| | split].
  - intros [v H].
    destruct (net log _) as [data | e]; simpl in H; [| discriminate].
    destruct (getOrders.reshape data) as [v' |] eqn:Re; simpl in H; [| discriminate].
    destruct (reshape_normal_inv _ _ Re) as [edges [D [O [E F]]]].
    exists data, edges. repeat split; assumption.
  - intros [data [edges [A [D [O [E F]]]]]].
    rewrite A; simpl. rewrite (Fl data edges D O E F). simpl. eexists; reflexivity.
  - intros data edges A D O E F.
    rewrite A; simpl. rewrite (Fl data edges D O E F). reflexivity.
  - destruct (net log _) as [data | e]; simpl.
    + destruct (getOrders.reshape data) as [v' |]; simpl.
      * left. eexists; reflexivity.
      * right. eexists; reflexivity.
    + right. eexists; reflexivity.
Qed.

Lemma getOrders_returns_iff_witness :
  completion_of (run (always (Resolved two_orders)) []
                     (getOrders_session example_client input_first_two (mkVars None)))
  = Normal (flattened
              [VObj [("cursor", VStr "c1");
                     ("node", VObj [("id", VStr "gid://shopify/Order/1")])];
               VObj [("cursor", VStr "c2");
                     ("node", VObj [("id", VStr "gid://shopify/Order/2")])]]
              (field (field two_orders "orders") "pageInfo")).
Proof.
  apply (proj1 (proj2
           (getOrders_returns_iff (always (Resolved two_orders)) example_client
                                  input_first_two (mkVars None) []))).
  - reflexivity.
  - reflexivity.
  - reflexivity.
  - reflexivity.
  - repeat constructor.
Defined.

(** ** Calls without a client *)

(** X5: a call of [execute] while the module's [shopifyClient] is still
    [undefined] (before any [initialize]) makes no request, leaves the
    variable [undefined] and throws the tool's prefixed [Error]. *)
Theorem execute_before_initialize_fails :
  forall net s log,
    shopifyClient s = None ->
    (forall input, exists m,
        run net log (getOrders.execute input s)
        = ((Thrown (Error ("Failed to fetch orders: " ++ m)), s), log))
    /\ (forall input, exists m,
           run net log (getOrderById.execute input s)
           = ((Thrown (Error ("Failed to fetch order: " ++ m)), s), log)).
Proof.
  intros net s log U. split; intro input.
  - rewrite getOrders_run_execute, U. eexists; reflexivity.
  - rewrite getOrderById_run_execute, U. eexists; reflexivity.
Qed.

Lemma execute_before_initialize_fails_witness :
  (forall input, exists m,
      run (always (Resolved two_orders)) [] (getOrders.execute input (mkVars None))
      = ((Thrown (Error ("Failed to fetch orders: " ++ m)), mkVars None), []))
  /\ (forall input, exists m,
         run (always (Resolved two_orders)) []
             (getOrderById.execute input (mkVars None))
         = ((Thrown (Error ("Failed to fetch order: " ++ m)), mkVars None), [])).
Proof.
  apply (execute_before_initialize_fails (always (Resolved two_orders))
                                         (mkVars None) []).
  reflexivity.
Defined.

(** ** What get-order-by-id returns *)

(** X6: whatever get-order-by-id returns is the [order] property of the
    response the client resolved with, and it is truthy: the call never
    returns [null], [undefined], [false], [0], [NaN] or the empty string. *)
Theorem getOrderById_returns_only_truthy :
  forall net input s log v,
    completion_of (run net log (getOrderById.execute input s)) = Normal v ->
    truthy v = true
    /\ exists c data,
        shopifyClient s = Some c /\
        net log (mkRequest c getOrderById.document
                           (getOrderById.variables_of input)) = Resolved data /\
        v = field data "order".
Proof.
  intros net input s log v H.
  rewrite getOrderById_run_execute in H. unfold completion_of in H.
  destruct (shopifyClient s) as [c |]; simpl in H; [| discriminate].
  destruct (net log _) as [data | e] eqn:A; simpl in H; [| discriminate].
  rewrite unwrap_cases in H.
  destruct (get_prop data "order") as [order |] eqn:G; simpl in H; [| discriminate].
  destruct (truthy order) eqn:T; simpl in H; [| discriminate].
  inversion H; subst v.
  apply get_prop_normal in G. destruct G as [_ ->].
  split; [exact T |]. exists c, data. repeat split; assumption.
Qed.

Lemma getOrderById_returns_only_truthy_witness :
  truthy (VObj [("id", VStr "gid://shopify/Order/1"); ("name", VStr "#1001")]) = true
  /\ exists c data,
      shopifyClient (mkVars (Some example_client)) = Some c /\
      always (Resolved order_found) []
             (mkRequest c getOrderById.document
                        (getOrderById.variables_of input_order_1)) = Resolved data /\
      VObj [("id", VStr "gid://shopify/Order/1"); ("name", VStr "#1001")]
      = field data "order".
Proof.
  apply (getOrderById_returns_only_truthy (always (Resolved order_found))
                                          input_order_1
                                          (mkVars (Some example_client)) []).
  rewrite getOrderById_run_execute. reflexivity.
Defined.

(** ** Calls in a row *)

Lemma run_invocations_getOrders net c :
  forall inputs log,
    snd (run net log (invocations (map getOrders.execute inputs) (mkVars (Some c))))
    = log ++ map (fun input => mkRequest c getOrders.document
                                         (getOrders.variables_of input)) inputs
    /\ snd (fst (run net log (invocations (map getOrders.execute inputs)
                                          (mkVars (Some c)))))
       = mkVars (Some c)
    /\ length (fst (fst (run net log (invocations (map getOrders.execute inputs)
                                                  (mkVars (Some c))))))
       = length inputs.
Proof.
  induction inputs as [| input rest IH]; intro log; cbn [map invocations].
  - cbn. rewrite app_nil_r. repeat split.
  - rewrite run_bind_proc, getOrders_run_execute. cbn [shopifyClient fst snd].
    rewrite run_bind_proc. cbn [run fst snd].
    destruct (IH (log ++ [mkRequest c getOrders.document
                                    (getOrders.variables_of input)]))
      as [L [S N]].
    split; [| split].
    + rewrite L, <- app_assoc. reflexivity.
    + exact S.
    + cbn [length]. now rewrite N.
Qed.

Lemma run_invocations_getOrderById net c :
  forall inputs log,
    snd (run net log (invocations (map getOrderById.execute inputs)
                                  (mkVars (Some c))))
    = log ++ map (fun input => mkRequest c getOrderById.document
                                         (getOrderById.variables_of input)) inputs
    /\ snd (fst (run net log (invocations (map getOrderById.execute inputs)
                                          (mkVars (Some c)))))
       = mkVars (Some c)
    /\ length (fst (fst (run net log (invocations (map getOrderById.execute inputs)
                                                  (mkVars (Some c))))))
       = length inputs.
Proof.
  induction inputs as [| input rest IH]; intro log; cbn [map invocations].
  - cbn. rewrite app_nil_r. repeat split.
  - rewrite run_bind_proc, getOrderById_run_execute. cbn [shopifyClient fst snd].
    rewrite run_bind_proc. cbn [run fst snd].
    destruct (IH (log ++ [mkRequest c getOrderById.document
                                    (getOrderById.variables_of input)]))
      as [L [S N]].
    split; [| split].
    + rewrite L, <- app_assoc. reflexivity.
    + exact S.
    + cbn [length]. now rewrite N.
Qed.

(** X7: after one [initialize(client)], any number of calls of a tool made one
    after the other, whatever each of them returns or throws, make exactly
    one request each, in the order of the calls, all on that client, each
    with the tool's document and the variables of its own input; every call
    completes, and the client is still installed at the end. *)
Theorem calls_in_a_row_make_one_request_each :
  forall net c s log,
    (forall inputs,
        snd (run net log (initialized_invocations
                            (getOrders.initialize c)
                            (map getOrders.execute inputs) s))
        = log ++ map (fun input => mkRequest c getOrders.document
                                             (getOrders.variables_of input)) inputs
        /\ snd (fst (run net log (initialized_invocations
                                    (getOrders.initialize c)
                                    (map getOrders.execute inputs) s)))
           = mkVars (Some c)
        /\ length (fst (fst (run net log (initialized_invocations
                                            (getOrders.initialize c)
                                            (map getOrders.execute inputs) s))))
           = length inputs)
    /\ (forall inputs,
           snd (run net log (initialized_invocations
                               (getOrderById.initialize c)
                               (map getOrderById.execute inputs) s))
           = log ++ map (fun input => mkRequest c getOrderById.document
                                                (getOrderById.variables_of input))
                        inputs
           /\ snd (fst (run net log (initialized_invocations
                                       (getOrderById.initialize c)
                                       (map getOrderById.execute inputs) s)))
              = mkVars (Some c)
           /\ length (fst (fst (run net log (initialized_invocations
                                               (getOrderById.initialize c)
                                               (map getOrderById.execute inputs) s))))
              = length inputs).
Proof.
  intros net c s log. split; intro inputs; unfold initialized_invocations.
  - rewrite run_bind_proc. cbn [getOrders.initialize write_shopifyClient run fst snd].
    apply run_invocations_getOrders.
  - rewrite run_bind_proc.
    cbn [getOrderById.initialize write_shopifyClient run fst snd].
    apply run_invocations_getOrderById.
Qed.

(** ** The registered tools *)

Lemma run_tool_getOrders net c args input s log :
  index.get_orders_shape args = Success input ->
  run net log (get_orders_call c args s)
  = ((wrapped (completion_of (run net log (getOrders_session c input s))),
      mkVars (Some c)),
     log ++ [mkRequest c getOrders.document (getOrders.variables_of input)]).
Proof.
  intro P. unfold get_orders_call, getOrders_session.
  rewrite !run_after_initialize_getOrders.
  unfold index.get_orders_tool, index.server_tool. rewrite P.
  rewrite run_try_catch.
  unfold index.get_orders_cb. rewrite run_bind, getOrders_run_execute; simpl.
  destruct (rethrown _ _); reflexivity.
Qed.

Lemma run_tool_getOrderById net c args input s log :
  getOrderById.GetOrderByIdInputSchema args = Success input ->
  run net log (get_order_by_id_call c args s)
  = ((wrapped (completion_of (run net log (getOrderById_session c input s))),
      mkVars (Some c)),
     log ++ [mkRequest c getOrderById.document (getOrderById.variables_of input)]).
Proof.
  intro P. unfold get_order_by_id_call, getOrderById_session.
  rewrite !run_after_initialize_getOrderById.
  unfold index.get_order_by_id_tool, index.server_tool. rewrite P.
  rewrite run_try_catch.
  unfold index.get_order_by_id_cb. rewrite run_bind, getOrderById_run_execute; simpl.
  destruct (rethrown _ _); reflexivity.
Qed.

(** X8: a call of a registered order tool whose arguments parse never
    throws and makes the one request of [execute]: what [execute] returns is
    handed on as the text content, and what [execute] throws comes back as an
    error result whose text is the message [execute] gave it.  So a rejection
    of the client reads ["Failed to fetch orders: "] (["Failed to fetch
    order: "]) followed by the client's message, and an order that is [null]
    or absent reads ["Failed to fetch order: Order not found with ID: "]
    followed by the order id. *)
Theorem tool_call_reports_errors_as_text :
  forall net c s log orders_args orders_input order_args order_input,
    index.get_orders_shape orders_args = Success orders_input ->
    getOrderById.GetOrderByIdInputSchema order_args = Success order_input ->
    (match completion_of (run net log (getOrders_session c orders_input s)) with
     | Normal v =>
         completion_of (run net log (get_orders_call c orders_args s))
         = Normal (index.TextContent v)
     | Thrown e =>
         completion_of (run net log (get_orders_call c orders_args s))
         = Normal (index.ToolError (message e))
     end)
    /\ match net log (mkRequest c getOrders.document
                                 (getOrders.variables_of orders_input)) with
       | Rejected e =>
           completion_of (run net log (get_orders_call c orders_args s))
           = Normal (index.ToolError ("Failed to fetch orders: " ++ message e))
       | Resolved _ => True
       end
    /\ log_of (run net log (get_orders_call c orders_args s))
       = log ++ [mkRequest c getOrders.document
                           (getOrders.variables_of orders_input)]
    /\ (match completion_of (run net log (getOrderById_session c order_input s)) with
        | Normal v =>
            completion_of (run net log (get_order_by_id_call c order_args s))
            = Normal (index.TextContent v)
        | Thrown e =>
            completion_of (run net log (get_order_by_id_call c order_args s))
            = Normal (index.ToolError (message e))
        end)
    /\ match net log (mkRequest c getOrderById.document
                                 (getOrderById.variables_of order_input)) with
       | Rejected e =>
           completion_of (run net log (get_order_by_id_call c order_args s))
           = Normal (index.ToolError ("Failed to fetch order: " ++ message e))
       | Resolved (VObj fields) =>
           lookup "order" fields = VNull \/ has_key "order" fields = false ->
           completion_of (run net log (get_order_by_id_call c order_args s))
           = Normal (index.ToolError
                       ("Failed to fetch order: " ++ "Order not found with ID: "
                        ++ getOrderById.orderId order_input))
       | Resolved _ => True
       end
    /\ log_of (run net log (get_order_by_id_call c order_args s))
       = log ++ [mkRequest c getOrderById.document
                           (getOrderById.variables_of order_input)].
Proof.
  intros net c s log orders_args orders_input order_args order_input P1 P2.
  rewrite (run_tool_getOrders net c orders_args orders_input s log P1).
  rewrite (run_tool_getOrderById net c order_args order_input s log P2).
  cbn [completion_of log_of fst snd].
  split; [| split; [| split; [| split; [| split]]]].
  - destruct (run net log (getOrders_session c orders_input s)) as [[[v | e] s'] l'];
      reflexivity.
  - unfold getOrders_session.
    rewrite run_after_initialize_getOrders, getOrders_run_execute.
    cbn [shopifyClient fst].
    destruct (net log _) as [data | e]; [exact I | reflexivity].
  - reflexivity.
  - destruct (run net log (getOrderById_session c order_input s))
      as [[[v | e] s'] l']; reflexivity.
  - destruct (net log (mkRequest c getOrderById.document
                                 (getOrderById.variables_of order_input)))
      as [data | e] eqn:A.
    + destruct data as [| | b | n | str | l | fields]; try exact I.
      intro H.
      fold (completion_of (run net log (getOrderById_session c order_input s))).
      rewrite (getOrderById_session_completion net c order_input s log _ A).
      unfold get_prop; simpl.
      destruct H as [N | M];
        [rewrite N | rewrite (lookup_missing _ _ M)]; reflexivity.
    + unfold getOrderById_session.
      rewrite run_after_initialize_getOrderById, getOrderById_run_execute.
      cbn [shopifyClient fst]. rewrite A. reflexivity.
  - reflexivity.
Qed.

Lemma tool_call_reports_errors_as_text_witness :
  (match completion_of (run flaky []
            (getOrders_session example_client input_before (mkVars None))) with
   | Normal v =>
       completion_of (run flaky []
                          (get_orders_call example_client args_before (mkVars None)))
       = Normal (index.TextContent v)
   | Thrown e =>
       completion_of (run flaky []
                          (get_orders_call example_client args_before (mkVars None)))
       = Normal (index.ToolError (message e))
   end)
  /\ completion_of (run flaky []
                        (get_orders_call example_client args_before (mkVars None)))
     = Normal (index.ToolError "Failed to fetch orders: ECONNRESET")
  /\ completion_of (run (always (Resolved order_null)) []
                        (get_order_by_id_call example_client args_order_1
                                              (mkVars None)))
     = Normal (index.ToolError
                 "Failed to fetch order: Order not found with ID: gid://shopify/Order/1").
Proof.
  split; [| split].
  - apply (proj1 (tool_call_reports_errors_as_text
                    flaky example_client (mkVars None) []
                    args_before input_before args_order_1 input_order_1
                    eq_refl eq_refl)).
  - apply (proj1 (proj2 (tool_call_reports_errors_as_text
                           flaky example_client (mkVars None) []
                           args_before input_before args_order_1 input_order_1
                           eq_refl eq_refl))).
  - apply (proj1 (proj2 (proj2 (proj2 (proj2 (tool_call_reports_errors_as_text
                           (always (Resolved order_null)) example_client
                           (mkVars None) []
                           args_before input_before args_order_1 input_order_1
                           eq_refl eq_refl)))))).
    left. reflexivity.
Defined.

(** ** What the get-orders shape accepts *)

Lemma z_number_accepts n : n <> S754_nan -> z_number (VNum n) = Success n.
Proof. destruct n; try reflexivity. intro N. now contradiction N. Qed.

(** X9: the shape of get-orders puts no bound on [limit]: every number other
    than [NaN] (zero, negative, fractional or infinite ones too) is accepted
    and reaches the request unchanged, as [last] when [before] is present and
    not empty and as [first] otherwise; [NaN] is refused. *)
Theorem limit_is_not_bounded :
  (forall n,
      n <> S754_nan ->
      index.get_orders_shape (VObj [("limit", VNum n)])
      = Success (getOrders.mkInput None n None None false getOrders.PROCESSED_AT))
  /\ (forall args input n,
         field args "limit" = VNum n ->
         index.get_orders_shape args = Success input ->
         getOrders.limit input = n /\
         if given (getOrders.before input)
         then field (getOrders.variables_of input) "last" = VNum n
         else field (getOrders.variables_of input) "first" = VNum n)
  /\ (forall args,
         field args "limit" = VNum S754_nan ->
         exists issue, index.get_orders_shape args = Failure issue).
Proof.
  split; [| split].
  - intros n N. unfold index.get_orders_shape; simpl.
    unfold z_default. rewrite (z_number_accepts n N). reflexivity.
  - intros args input n L P.
    destruct (get_orders_shape_success _ _ P) as [props [-> [_ [Lim _]]]].
    simpl in L. rewrite L in Lim. unfold z_default in Lim.
    assert (E : n = getOrders.limit input)
      by (destruct n; simpl in Lim; inversion Lim; reflexivity).
    split; [symmetry; exact E |].
    pose proof (variables_pagination input) as [Pg _]. rewrite <- E in Pg.
    destruct (given (getOrders.before input)); apply Pg.
  - intros args L. destruct args; try discriminate L. simpl in L.
    cbv beta iota delta [index.get_orders_shape z_object_props and_then].
    destruct (z_optional z_string _); [| eexists; reflexivity].
    rewrite L. eexists; reflexivity.
Qed.

Lemma limit_is_not_bounded_witness :
  index.get_orders_shape (VObj [("limit", VNum minus_two_and_a_half)])
  = Success (getOrders.mkInput None minus_two_and_a_half None None false
                               getOrders.PROCESSED_AT).
Proof.
  apply (proj1 limit_is_not_bounded minus_two_and_a_half). discriminate.
Defined.

Lemma optional_string_ill_typed v :
  ill_typed is_string v -> z_optional z_string v = Failure "invalid_type".
Proof. intros [U T]. destruct v; try reflexivity; [now contradiction U | discriminate T]. Qed.

Lemma default_number_ill_typed v :
  ill_typed is_number v -> z_default (VNum ten) z_number v = Failure "invalid_type".
Proof. intros [U T]. destruct v; try reflexivity; [now contradiction U | discriminate T]. Qed.

Lemma default_boolean_ill_typed v :
  ill_typed is_boolean v ->
  z_optional_default (VBool false) false z_boolean v = Failure "invalid_type".
Proof. intros [U T]. destruct v; try reflexivity; [now contradiction U | discriminate T]. Qed.

Lemma ill_typed_object is_type args k :
  ill_typed is_type (field args k) -> exists props, args = VObj props.
Proof.
  intros [U _]. destruct args; try (now contradiction U). eexists; reflexivity.
Qed.

(** X10: the shape of get-orders does not coerce: arguments that are not an
    object, or that hold a [query], [after] or [before] that is not a string,
    a [limit] that is not a number or a [reverse] that is not a boolean
    ([null] in any of them included) are refused, so a call with them ends
    before [execute] and without a request. *)
Theorem ill_typed_arguments_are_refused :
  forall args,
    (forall props, args <> VObj props)
    \/ ill_typed is_string (field args "query")
    \/ ill_typed is_number (field args "limit")
    \/ ill_typed is_string (field args "after")
    \/ ill_typed is_string (field args "before")
    \/ ill_typed is_boolean (field args "reverse") ->
    (exists issue, index.get_orders_shape args = Failure issue)
    /\ forall net c s log, exists e,
        run net log (get_orders_call c args s) = ((Thrown e, mkVars (Some c)), log).
Proof.
  intros args H.
  assert (F : exists issue, index.get_orders_shape args = Failure issue).
  { destruct H as [H | H].
    { destruct args; try (eexists; reflexivity). now contradiction (H props). }
    assert (O : exists props, args = VObj props)
      by (destruct H as [H | [H | [H | [H | H]]]];
          eapply ill_typed_object; exact H).
    destruct O as [props ->]. simpl in H.
    cbv beta iota delta [index.get_orders_shape z_object_props and_then].
    destruct H as [H | H];
      [rewrite (optional_string_ill_typed _ H); eexists; reflexivity |].
    destruct (z_optional z_string (lookup "query" props));
      [| eexists; reflexivity].
    destruct H as [H | H];
      [rewrite (default_number_ill_typed _ H); eexists; reflexivity |].
    destruct (z_default (VNum ten) z_number (lookup "limit" props));
      [| eexists; reflexivity].
    destruct H as [H | H];
      [rewrite (optional_string_ill_typed _ H); eexists; reflexivity |].
    destruct (z_optional z_string (lookup "after" props));
      [| eexists; reflexivity].
    destruct H as [H | H];
      [rewrite (optional_string_ill_typed _ H); eexists; reflexivity |].
    destruct (z_optional z_string (lookup "before" props));
      [| eexists; reflexivity].
    rewrite (default_boolean_ill_typed _ H). eexists; reflexivity. }
  split; [exact F |].
  intros net c s log. destruct F as [issue F].
  unfold get_orders_call. rewrite run_after_initialize_getOrders.
  eexists. apply server_tool_failure. exact F.
Qed.

Lemma ill_typed_arguments_are_refused_witness :
  (exists issue, index.get_orders_shape args_null_query = Failure issue)
  /\ forall net c s log, exists e,
      run net log (get_orders_call c args_null_query s)
      = ((Thrown e, mkVars (Some c)), log).
Proof.
  apply (ill_typed_arguments_are_refused args_null_query).
  right; left. split; [discriminate | reflexivity].
Defined.

(** X11: the shape written out for get-orders in [index.ts] and the schema of
    [getOrders.ts] have not drifted apart: they accept the same arguments and
    parse them to the same input, so the tool registered with either behaves
    alike. *)
Theorem registered_shape_agrees_with_schema :
  forall args,
    index.get_orders_shape args = getOrders.GetOrdersInputSchema args
    /\ forall cb s,
        index.server_tool "get-orders" index.get_orders_shape cb args s
        = index.server_tool "get-orders" getOrders.GetOrdersInputSchema cb args s.
Proof.
  intro args. split; [reflexivity |].
  intros cb s. rewrite get_orders_shape_is_schema. reflexivity.
Qed.

(** ** Start-up *)

Lemma supplies_resolves cli from_env t :
  supplies cli from_env t -> or_else cli (of_optional from_env) = VStr t.
Proof.
  intros [N [C | [F E]]]; unfold or_else.
  - subst cli. simpl. destruct t; [now contradiction N | reflexivity].
  - rewrite F, E. reflexivity.
Qed.

Lemma lacks_iff cli from_env :
  lacks cli from_env <-> truthy (or_else cli (of_optional from_env)) = false.
Proof.
  unfold lacks, or_else. split.
  - intros [F [E | E]]; rewrite F, E; reflexivity.
  - destruct (truthy cli) eqn:T; [intro H; congruence |].
    intro H. split; [reflexivity |].
    destruct from_env as [[| a s] |]; [now right | discriminate H | now left].
Qed.

(** X12: when the access token and the shop domain are each supplied as a
    non-empty text, on the command line or, with nothing truthy there (absent
    or empty), in the environment, start-up goes through: the command line
    wins over the environment, the client is created for
    [https://<domain>/admin/api/2025-01/graphql.json] with the token in the
    [X-Shopify-Access-Token] header, and [process.env] holds the two values
    used. *)
Theorem startup_uses_supplied_settings :
  forall Number_toString argv env token domain,
    supplies (field argv "accessToken") (env_get "SHOPIFY_ACCESS_TOKEN" env) token ->
    supplies (field argv "domain") (env_get "MYSHOPIFY_DOMAIN" env) domain ->
    startup Number_toString argv env
    = Started
        (mkClient ("https://" ++ domain ++ "/admin/api/2025-01/graphql.json")
                  [("X-Shopify-Access-Token", token);
                   ("Content-Type", "application/json")])
        (env_set "MYSHOPIFY_DOMAIN" domain
                 (env_set "SHOPIFY_ACCESS_TOKEN" token env))
    /\ startup Number_toString argv env
       = Started (index.shopifyClient domain token)
                 (env_set "MYSHOPIFY_DOMAIN" domain
                          (env_set "SHOPIFY_ACCESS_TOKEN" token env)).
Proof.
  intros nts argv env token domain T D.
  assert (Tn : token <> "") by apply T.
  assert (Dn : domain <> "") by apply D.
  apply supplies_resolves in T, D.
  unfold startup, SHOPIFY_ACCESS_TOKEN, MYSHOPIFY_DOMAIN.
  rewrite T, D. simpl.
  destruct token as [| t0 token]; [now contradiction Tn |].
  destruct domain as [| d0 domain]; [now contradiction Dn |].
  split; reflexivity.
Qed.

Lemma startup_uses_supplied_settings_witness :
  startup no_numbers argv_token env_both
  = Started
      (mkClient ("https://" ++ "shop.myshopify.com" ++ "/admin/api/2025-01/graphql.json")
                [("X-Shopify-Access-Token", "shpat_cli");
                 ("Content-Type", "application/json")])
      (env_set "MYSHOPIFY_DOMAIN" "shop.myshopify.com"
               (env_set "SHOPIFY_ACCESS_TOKEN" "shpat_cli" env_both))
  /\ startup no_numbers argv_token env_both
     = Started (index.shopifyClient "shop.myshopify.com" "shpat_cli")
               (env_set "MYSHOPIFY_DOMAIN" "shop.myshopify.com"
                        (env_set "SHOPIFY_ACCESS_TOKEN" "shpat_cli" env_both)).
Proof.
  apply (startup_uses_supplied_settings no_numbers argv_token env_both
                                        "shpat_cli" "shop.myshopify.com").
  - split; [discriminate | left; reflexivity].
  - split; [discriminate | right; split; reflexivity].
Defined.

(** X13: start-up exits with code 1 exactly when a setting is supplied
    nowhere (nothing truthy on the command line and the environment variable
    unset or empty): without a token it prints the three lines about
    [SHOPIFY_ACCESS_TOKEN], whatever the domain is; with a token but without
    a domain the three lines about [MYSHOPIFY_DOMAIN]; and it never creates a
    client otherwise. *)
Theorem startup_exits_without_settings :
  forall Number_toString argv env,
    (lacks (field argv "accessToken") (env_get "SHOPIFY_ACCESS_TOKEN" env) ->
     exists env', startup Number_toString argv env = Exited 1 token_required env')
    /\ (~ lacks (field argv "accessToken") (env_get "SHOPIFY_ACCESS_TOKEN" env) ->
        lacks (field argv "domain") (env_get "MYSHOPIFY_DOMAIN" env) ->
        exists env', startup Number_toString argv env = Exited 1 domain_required env')
    /\ (forall client env',
           startup Number_toString argv env = Started client env' ->
           ~ lacks (field argv "accessToken") (env_get "SHOPIFY_ACCESS_TOKEN" env)
           /\ ~ lacks (field argv "domain") (env_get "MYSHOPIFY_DOMAIN" env))
    /\ (forall code stderr env',
           startup Number_toString argv env = Exited code stderr env' ->
           code = 1 /\
           (lacks (field argv "accessToken") (env_get "SHOPIFY_ACCESS_TOKEN" env)
            \/ lacks (field argv "domain") (env_get "MYSHOPIFY_DOMAIN" env))).
Proof.
  intros nts argv env.
  pose proof (lacks_iff (field argv "accessToken")
                        (env_get "SHOPIFY_ACCESS_TOKEN" env)) as LT.
  pose proof (lacks_iff (field argv "domain")
                        (env_get "MYSHOPIFY_DOMAIN" env)) as LD.
  unfold startup, SHOPIFY_ACCESS_TOKEN, MYSHOPIFY_DOMAIN.
  destruct (truthy (or_else (field argv "accessToken") _)) eqn:T;
    destruct (truthy (or_else (field argv "domain") _)) eqn:D; simpl.
  all: split; [| split; [| split]].
  all: try (intro L; apply LT in L; try congruence; eexists; reflexivity).
  all: try (intros NL L; apply LD in L; try congruence;
            try (eexists; reflexivity); exfalso; apply NL, LT; reflexivity).
  all: try (intros client env' H;
            first [discriminate H
                  | split; intro L; [apply LT in L | apply LD in L]; congruence]).
  all: intros code stderr env' H; first [discriminate H | inversion H];
    (split; [reflexivity |]).
  - right. apply LD. reflexivity.
  - left. apply LT. reflexivity.
  - left. apply LT. reflexivity.
Qed.

Lemma startup_exits_without_settings_witness :
  (exists env', startup no_numbers argv_nothing [] = Exited 1 token_required env')
  /\ (exists env', startup no_numbers argv_token env_empty_domain
                   = Exited 1 domain_required env').
Proof.
  split.
  - apply (proj1 (startup_exits_without_settings no_numbers argv_nothing [])).
    split; [reflexivity | left; reflexivity].
  - apply (proj1 (proj2 (startup_exits_without_settings no_numbers argv_token
                                                        env_empty_domain))).
    + intros [F _]. discriminate F.
    + split; [reflexivity | right; reflexivity].
Defined.

(** ** Identifiers and defaults of the registered shapes *)

Lemma min1_string_success v s :
  z_min 1 z_string v = Success s <-> v = VStr s /\ s <> "".
Proof.
  unfold z_min, z_string, and_then. split.
  - destruct v as [| | b | n | str | l | props]; try discriminate.
    destruct str as [| a str]; simpl; [discriminate |].
    intro H. inversion H. split; [reflexivity | discriminate].
  - intros [-> N]. destruct s as [| a s]; [now contradiction N | reflexivity].
Qed.

Lemma min1_string_no_id v :
  no_id v -> exists issue, z_min 1 z_string v = Failure issue.
Proof.
  intro N. destruct (z_min 1 z_string v) as [s |] eqn:E; [| eexists; reflexivity].
  apply min1_string_success in E. destruct E as [E Ne].
  now contradiction (Ne (N s E)).
Qed.

(** X14: the tools that take an identifier accept exactly a non-empty string
    for it and pass it on unchanged (a string of blanks too): get-order-by-id
    and get-product-by-id parse their arguments if and only if [orderId]
    ([productId]) is such a string, get-articles refuses a [blogId] that is
    not; a missing, [null], non-string or empty identifier is refused, and
    such a call of get-order-by-id throws without a request. *)
Theorem identifiers_are_required :
  (forall args input,
      getOrderById.GetOrderByIdInputSchema args = Success input
      <-> field args "orderId" = VStr (getOrderById.orderId input)
          /\ getOrderById.orderId input <> "")
  /\ (forall args input,
         shapes.get_product_by_id args = Success input
         <-> field args "productId" = VStr (shapes.productId input)
             /\ shapes.productId input <> "")
  /\ (forall args input,
         shapes.get_articles args = Success input ->
         field args "blogId" = VStr (shapes.blogId input)
         /\ shapes.blogId input <> "")
  /\ (forall args,
         no_id (field args "blogId") ->
         exists issue, shapes.get_articles args = Failure issue)
  /\ (forall args,
         no_id (field args "orderId") ->
         (exists issue, getOrderById.GetOrderByIdInputSchema args = Failure issue)
         /\ forall net c s log, exists e,
             run net log (get_order_by_id_call c args s)
             = ((Thrown e, mkVars (Some c)), log)).
Proof.
  split; [| split; [| split; [| split]]].
  - intros args [o]; simpl.
    destruct args as [| | b | n | str | l | props];
      try (split; [discriminate | intros [H _]; discriminate H]).
    cbv beta iota delta [getOrderById.GetOrderByIdInputSchema z_object_props
                         and_then field].
    rewrite <- min1_string_success.
    destruct (z_min 1 z_string (lookup "orderId" props)) as [s |];
      split; intro H; inversion H; reflexivity.
  - intros args [p]; simpl.
    destruct args as [| | b | n | str | l | props];
      try (split; [discriminate | intros [H _]; discriminate H]).
    cbv beta iota delta [shapes.get_product_by_id z_object_props and_then field].
    rewrite <- min1_string_success.
    destruct (z_min 1 z_string (lookup "productId" props)) as [s |];
      split; intro H; inversion H; reflexivity.
  - intros args [b t lim]; simpl.
    destruct args as [| | b' | n | str | l | props]; try discriminate.
    cbv beta iota delta [shapes.get_articles z_object_props and_then field].
    destruct (z_min 1 z_string (lookup "blogId" props)) as [s |] eqn:E;
      [| discriminate].
    destruct (z_optional z_string _); [| discriminate].
    destruct (z_default _ z_number _); [| discriminate].
    intro H. inversion H; subst. now apply min1_string_success.
  - intros args N.
    destruct args as [| | b' | n | str | l | props]; try (eexists; reflexivity).
    cbv beta iota delta [shapes.get_articles z_object_props and_then].
    simpl in N. destruct (min1_string_no_id _ N) as [issue ->].
    eexists; reflexivity.
  - intros args N.
    assert (F : exists issue,
               getOrderById.GetOrderByIdInputSchema args = Failure issue).
    { destruct args as [| | b' | n | str | l | props]; try (eexists; reflexivity).
      cbv beta iota delta [getOrderById.GetOrderByIdInputSchema z_object_props
                           and_then].
      simpl in N. destruct (min1_string_no_id _ N) as [issue ->].
      eexists; reflexivity. }
    split; [exact F |]. intros net c s log. destruct F as [issue F].
    unfold get_order_by_id_call. rewrite run_after_initialize_getOrderById.
    eexists. apply server_tool_failure. exact F.
Qed.

Lemma identifiers_are_required_witness :
  getOrderById.GetOrderByIdInputSchema args_order_1 = Success input_order_1
  /\ ((exists issue, getOrderById.GetOrderByIdInputSchema args_no_id = Failure issue)
      /\ forall net c s log, exists e,
          run net log (get_order_by_id_call c args_no_id s)
          = ((Thrown e, mkVars (Some c)), log)).
Proof.
  split.
  - apply (proj1 identifiers_are_required args_order_1 input_order_1).
    split; [reflexivity | discriminate].
  - apply (proj2 (proj2 (proj2 (proj2 identifiers_are_required))) args_no_id).
    intros s E. discriminate E.
Defined.

(** X15: the listing tools registered in [index.ts] (get-products,
    get-collections, get-pages, get-blogs, get-articles) parse an omitted
    [limit] as 10 and get-products an omitted [reverse] as [false]; the
    shapes of get-collections, get-pages and get-blogs, written out three
    times, are one and the same. *)
Theorem listing_shapes_defaults :
  forall args,
    (contains args "limit" = false ->
     (forall input, shapes.get_products args = Success input ->
                    shapes.products_limit input = ten)
     /\ (forall input, shapes.get_collections args = Success input ->
                       shapes.limit input = ten)
     /\ (forall input, shapes.get_articles args = Success input ->
                       shapes.articles_limit input = ten))
    /\ (contains args "reverse" = false ->
        forall input, shapes.get_products args = Success input ->
                      shapes.products_reverse input = false)
    /\ shapes.get_pages args = shapes.get_collections args
    /\ shapes.get_blogs args = shapes.get_collections args.
Proof.
  intro args. split; [| split; [| split; reflexivity]].
  - intro O. destruct args as [| | b' | n | str | l | props];
      try (repeat split; intros input H; discriminate H).
    simpl in O. apply lookup_missing in O.
    repeat split; intros input.
    + cbv beta iota delta [shapes.get_products z_object_props and_then].
      rewrite O.
      destruct (z_optional z_string (lookup "searchTitle" props)); [| discriminate].
      cbn [z_default z_number ten].
      destruct (z_optional z_string (lookup "after" props)); [| discriminate].
      destruct (z_optional z_string (lookup "before" props)); [| discriminate].
      destruct (z_optional_default _ _ z_boolean _); [| discriminate].
      intro H. inversion H. reflexivity.
    + cbv beta iota delta [shapes.get_collections z_object_props and_then].
      rewrite O.
      destruct (z_optional z_string (lookup "searchTitle" props)); [| discriminate].
      cbn [z_default z_number ten].
      intro H. inversion H. reflexivity.
    + cbv beta iota delta [shapes.get_articles z_object_props and_then].
      rewrite O.
      destruct (z_min 1 z_string _); [| discriminate].
      destruct (z_optional z_string (lookup "searchTitle" props)); [| discriminate].
      cbn [z_default z_number ten].
      intro H. inversion H. reflexivity.
  - intro O. destruct args as [| | b' | n | str | l | props];
      try (intros input H; discriminate H).
    simpl in O. apply lookup_missing in O. intro input.
    cbv beta iota delta [shapes.get_products z_object_props and_then].
    rewrite O.
    destruct (z_optional z_string (lookup "searchTitle" props)); [| discriminate].
    destruct (z_default _ z_number _); [| discriminate].
    destruct (z_optional z_string (lookup "after" props)); [| discriminate].
    destruct (z_optional z_string (lookup "before" props)); [| discriminate].
    cbn. intro H. inversion H. reflexivity.
Qed.

Lemma listing_shapes_defaults_witness :
  shapes.get_collections args_none = Success (shapes.mkListing None ten)
  /\ shapes.limit (shapes.mkListing None ten) = ten.
Proof.
  split; [reflexivity |].
  apply (proj1 (proj2 (proj1 (listing_shapes_defaults args_none) eq_refl))
               (shapes.mkListing None ten)).
  reflexivity.
Defined.

(** ** From the settings to the request *)

(** X16: end to end, a get-orders call served by a script started with a
    token and a domain makes its one request on the client of that domain,
    [https://<domain>/admin/api/2025-01/graphql.json], with that token in the
    header, carrying the GetOrders document and the variables of the parsed
    arguments; a script that lacks the token serves nothing and requests
    nothing. *)
Theorem served_call_goes_to_the_configured_shop :
  forall Number_toString net argv env args,
    (forall token domain input,
        supplies (field argv "accessToken")
                 (env_get "SHOPIFY_ACCESS_TOKEN" env) token ->
        supplies (field argv "domain") (env_get "MYSHOPIFY_DOMAIN" env) domain ->
        index.get_orders_shape args = Success input ->
        served_requests net (served_get_orders Number_toString argv env args)
        = [mkRequest
             (mkClient ("https://" ++ domain ++ "/admin/api/2025-01/graphql.json")
                       [("X-Shopify-Access-Token", token);
                        ("Content-Type", "application/json")])
             getOrders.document (getOrders.variables_of input)])
    /\ (lacks (field argv "accessToken") (env_get "SHOPIFY_ACCESS_TOKEN" env) ->
        served_get_orders Number_toString argv env args = None
        /\ served_requests net (served_get_orders Number_toString argv env args)
           = []).
Proof.
  intros nts net argv env args. split.
  - intros token domain input T D P.
    assert (Tn : token <> "") by apply T.
    assert (Dn : domain <> "") by apply D.
    apply supplies_resolves in T, D.
    unfold served_get_orders, startup, SHOPIFY_ACCESS_TOKEN, MYSHOPIFY_DOMAIN.
    rewrite T, D.
    destruct token as [| t0 token]; [now contradiction Tn |].
    destruct domain as [| d0 domain]; [now contradiction Dn |].
    cbn [truthy String.eqb negb to_string served_requests].
    rewrite (run_get_orders_call net _ args input (mkVars None) [] P).
    reflexivity.
  - intro L. apply lacks_iff in L.
    unfold served_get_orders, startup, SHOPIFY_ACCESS_TOKEN.
    rewrite L. split; reflexivity.
Qed.

Lemma served_call_goes_to_the_configured_shop_witness :
  served_requests flaky (served_get_orders no_numbers argv_token env_both args_before)
  = [mkRequest
       (mkClient ("https://" ++ "shop.myshopify.com" ++ "/admin/api/2025-01/graphql.json")
                 [("X-Shopify-Access-Token", "shpat_cli");
                  ("Content-Type", "application/json")])
       getOrders.document (getOrders.variables_of input_before)].
Proof.
  apply (proj1 (served_call_goes_to_the_configured_shop
                  no_numbers flaky argv_token env_both args_before)
               "shpat_cli" "shop.myshopify.com" input_before).
  - split; [discriminate | left; reflexivity].
  - split; [discriminate | right; split; reflexivity].
  - reflexivity.
Defined.
